(** * Anomaly detection service: ensemble scoring, severity, confidence,
      rolling buffers and trend forecast

    A shallow embedding of [python-backend/src/services/anomaly_detector.py]
    (class [AnomalyDetector]) and of the background loop of
    [python-backend/src/main.py].

    Conventions of the embedding.
    - Python floats are idealised as real numbers ([R]): rounding, overflow
      and infinities are outside the model.  The one NaN the source can
      produce from finite inputs, [np.mean] of an empty list in the ensemble
      combination, is modelled explicitly ([npfloat]).
    - [try: ... except Exception] is modelled with the error monad [exc];
      a function whose body is wrapped in such a handler is total here.
    - The structured logger is modelled as the list of entries a call emits.
    - Code the detector imports but that is not part of this module (the
      time-series preprocessor, the fitted isolation forest, auto-encoder and
      VAE scorers, number formatting) is taken as a record of collaborators,
      each of which may raise. *)

From Stdlib Require Import Reals Lra Lia.
From stdpp Require Import gmap strings list.

Local Open Scope R_scope.

(** ** Numbers and numpy reductions *)

#[global] Instance Rlt_decision : RelDecision Rlt := Rlt_dec.
#[global] Instance Rle_decision : RelDecision Rle := Rle_dec.

(** [np.sum], [np.mean], [np.var] (population variance, ddof = 0),
    [np.std] and [np.diff] on one-dimensional arrays. *)
Definition np_sum (l : list R) : R := foldr Rplus 0 l.

Definition np_mean (l : list R) : R := np_sum l / INR (length l).

Definition np_var (l : list R) : R :=
  let m := np_mean l in
  np_mean (map (fun x => (x - m) * (x - m)) l).

Definition np_std (l : list R) : R := sqrt (np_var l).

Definition np_diff (l : list R) : list R :=
  zip_with (fun a b => b - a) l (drop 1 l).

(** The slice [l[-n:]] for a positive [n]: the last [n] elements, the whole
    list when it is shorter. *)
Definition tail_slice {A : Type} (n : nat) (l : list A) : list A :=
  drop (length l - n) l.

(** [np.mean] of a Python list that may be empty: numpy answers NaN (with a
    warning, not an exception) on the empty list. *)
Inductive npfloat : Type :=
  | Finite (r : R)
  | NaN.

Definition np_mean_list (l : list R) : npfloat :=
  match l with
  | [] => NaN
  | _ :: _ => Finite (np_mean l)
  end.

(** ** Exceptions and log entries *)

Inductive exc (A : Type) : Type :=
  | Ok (a : A)
  | Raise (msg : string).
Arguments Ok {A} a.
Arguments Raise {A} msg.

#[global] Instance exc_ret : MRet exc := fun A a => Ok a.
#[global] Instance exc_bind : MBind exc :=
  fun A B f m => match m with Ok a => f a | Raise e => Raise e end.

Inductive LogEntry : Type :=
  | LogInfo (event : string)
  | LogWarning (event : string)
  | LogError (event : string) (error : string).

(** ** Data model *)

Definition datetime : Type := Z.  (* seconds *)

Inductive Severity : Type := Info | Warning | Critical.

#[global] Instance Severity_eq_dec : EqDecision Severity.
Proof. solve_decision. Defined.

Definition severity_str (s : Severity) : string :=
  match s with
  | Info => "info"
  | Warning => "warning"
  | Critical => "critical"
  end.

Record AnomalyResult : Type := mkAnomalyResult {
  ar_timestamp : datetime;
  ar_metric_name : string;
  ar_value : R;
  is_anomaly : bool;
  anomaly_score : R;
  confidence : R;
  severity : Severity;
  description : string;
  recommendations : list string
}.

Record ModelPrediction : Type := mkModelPrediction {
  predicted_values : list R;
  confidence_intervals : list (list R);
  anomaly_scores : list R;
  model_name : string;
  mp_timestamp : datetime
}.

(** One entry of [metrics_collector.collect_all_metrics()]; a missing
    ['values'] or ['timestamps'] key reads as the empty list
    ([metric_data.get(key, [])]). *)
Record MetricData : Type := mkMetricData {
  values : list R;
  timestamps : list datetime
}.

(** One dictionary appended to [results] by [_run_ensemble_detection]. *)
Record EnsembleVote : Type := mkVote {
  model : string;
  scores : list R;
  weight : R
}.

Record Threshold : Type := mkThreshold {
  warning : R;
  critical : R
}.

(** [self.thresholds], as set by [__init__] and never reassigned. *)
Definition thresholds : gmap string Threshold :=
  list_to_map
    [ ("cpu"%string, mkThreshold 0.7 0.9);
      ("memory"%string, mkThreshold 0.75 0.9);
      ("disk"%string, mkThreshold 0.8 0.95);
      ("network"%string, mkThreshold 0.6 0.8);
      ("response_time"%string, mkThreshold 0.65 0.85) ].

Definition buffer_size : nat := 1000.

(** The mutable part of the detector: [self.data_buffer]. *)
Record Detector : Type := mkDetector {
  data_buffer : gmap string (list R)
}.

(** After [__init__]: no buffer at all. *)
Definition init : Detector := mkDetector ∅.

(** [_load_historical_data]: an empty buffer for each of the five metrics. *)
Definition _load_historical_data (self : Detector) : Detector :=
  mkDetector
    (foldl (fun db metric => <[metric := []]> db) (data_buffer self)
       ["cpu"; "memory"; "disk"; "network"; "response_time"]%string).

(** Collaborators of the detector that live outside this module. *)
Record Collaborators : Type := mkCollaborators {
  preprocess_time_series : list R -> exc (list R);
  isolation_forest_decision_function : list R -> exc (list R);
  autoencoder_decision_function : list R -> exc (list R);
  vae_decision_function : list R -> exc (list R);
  format_1f : R -> string;   (* f"{x:.1f}" *)
  format_2f : R -> string;   (* f"{x:.2f}" *)
  format_str : R -> string   (* f"{x}" *)
}.

(** ** Scoring models *)

(** [_transformer_anomaly_detection]: the z-score stand-in.  Its handler
    cannot fire on a numeric array, so the function is total. *)
Definition _transformer_anomaly_detection (data : list R) : list R :=
  let mean_val := np_mean data in
  let std_val := np_std data in
  let z_scores := map (fun x => Rabs ((x - mean_val) / (std_val + 1e-8))) data in
  let anomaly_scores := map (fun z => tanh (z / 3.0)) z_scores in
  anomaly_scores.

Definition ensemble_failed (e : string) : list LogEntry :=
  [LogError "Ensemble detection failed" e].

(** [_run_ensemble_detection]: the four scorers run in order inside one
    [try]; when one raises, the error is logged and the votes appended so
    far are returned. *)
Definition _run_ensemble_detection (E : Collaborators) (metric_name : string)
    (data : list R) (timestamps : list datetime)
  : list EnsembleVote * list LogEntry :=
  let results := [] in
  match isolation_forest_decision_function E data with
  | Raise e => (results, ensemble_failed e)
  | Ok iso_scores =>
    let results :=
      results ++ [mkVote "isolation_forest" (map Ropp iso_scores) 0.3] in
    match autoencoder_decision_function E data with
    | Raise e => (results, ensemble_failed e)
    | Ok ae_scores =>
      let results := results ++ [mkVote "autoencoder" ae_scores 0.3] in
      match vae_decision_function E data with
      | Raise e => (results, ensemble_failed e)
      | Ok vae_scores =>
        let results := results ++ [mkVote "v ae" vae_scores 0.2] in
        let transformer_scores := _transformer_anomaly_detection data in
        let results :=
          results ++ [mkVote "transformer" transformer_scores 0.2] in
        (results, [])
      end
    end
  end.

(** The comprehension [[result['scores'][i] for result in ensemble_results]];
    indexing past the end of a score array raises [IndexError]. *)
Fixpoint scores_at (ensemble_results : list EnsembleVote) (i : nat)
  : exc (list R) :=
  match ensemble_results with
  | [] => Ok []
  | result :: rest =>
    match scores result !! i with
    | None => Raise "index out of bounds"
    | Some s => tl ← scores_at rest i; mret (s :: tl)
    end
  end.

(** ** Severity, confidence, narration *)

Definition _determine_severity (metric_name : string) (anomaly_score : R)
  : Severity :=
  let thresholds :=
    default (mkThreshold 0.7 0.9) (thresholds !! metric_name) in
  if bool_decide (critical thresholds <= anomaly_score) then Critical
  else if bool_decide (warning thresholds <= anomaly_score) then Warning
  else Info.

Definition _calculate_confidence (ensemble_results : list EnsembleVote)
    (index : nat) : exc R :=
  scores ← scores_at ensemble_results index;
  let variance := np_var scores in
  let confidence := 1.0 / (1.0 + variance) in
  mret (Rmin confidence 1.0).

Definition _generate_description (E : Collaborators) (metric_name : string)
    (value score : R) : string :=
  let tail := (" (anomaly score: " ++ format_2f E score ++ ")")%string in
  let descriptions : gmap string string :=
    list_to_map
      [ ("cpu", "CPU usage anomaly detected: " ++ format_1f E value ++ "%" ++ tail);
        ("memory", "Memory usage anomaly detected: " ++ format_1f E value ++ "%" ++ tail);
        ("disk", "Disk usage anomaly detected: " ++ format_1f E value ++ "%" ++ tail);
        ("network", "Network I/O anomaly detected: " ++ format_1f E value ++ " MB/s" ++ tail);
        ("response_time", "Response time anomaly detected: " ++ format_1f E value ++ "ms" ++ tail)
      ]%string in
  default
    ("Anomaly detected in " ++ metric_name ++ ": " ++ format_str E value
       ++ " (score: " ++ format_2f E score ++ ")")%string
    (descriptions !! metric_name).

Definition _generate_recommendations (metric_name : string) (value : R)
    (severity : Severity) : list string :=
  let recommendations : gmap string (list string) :=
    list_to_map
      [ ("cpu", ["Check for runaway processes";
                 "Consider scaling up instances";
                 "Review recent deployments";
                 "Monitor application performance"]);
        ("memory", ["Check for memory leaks";
                    "Review application memory usage";
                    "Consider increasing instance memory";
                    "Restart affected services if necessary"]);
        ("disk", ["Clean up temporary files";
                  "Archive old logs";
                  "Check for large files";
                  "Consider adding storage capacity"]);
        ("network", ["Check network connectivity";
                     "Review bandwidth usage";
                     "Monitor for DDoS attacks";
                     "Verify load balancer configuration"]);
        ("response_time", ["Check database performance";
                           "Review application logs";
                           "Monitor external dependencies";
                           "Consider caching strategies"])
      ]%string in
  let base_recommendations :=
    default ["Investigate the anomaly"%string] (recommendations !! metric_name) in
  if decide (severity = Critical)
  then "IMMEDIATE ACTION REQUIRED"%string :: base_recommendations
  else base_recommendations.

(** ** Detection *)

#[global] Instance Rgt_decision : RelDecision Rgt := Rgt_dec.
#[global] Instance Rge_decision : RelDecision Rge := Rge_dec.

(** The warning level read by [detect_anomalies]:
    [self.thresholds.get(metric_name, {}).get('warning', 0.7)]. *)
Definition warning_level (metric_name : string) : R :=
  match thresholds !! metric_name with
  | Some t => warning t
  | None => 0.7
  end.

(** [np.mean([result['scores'][i] for result in ensemble_results])]. *)
Definition combined_anomaly_score (ensemble_results : list EnsembleVote)
    (i : nat) : exc npfloat :=
  scores ← scores_at ensemble_results i;
  mret (np_mean_list scores).

(** One iteration of the loop over [enumerate(zip(values, timestamps))]:
    [None] when the point is not flagged. *)
Definition detect_point (E : Collaborators) (metric_name : string)
    (ensemble_results : list EnsembleVote) (i : nat)
    (value : R) (timestamp : datetime) : exc (option AnomalyResult) :=
  anomaly_score ← combined_anomaly_score ensemble_results i;
  match anomaly_score with
  | NaN => mret None  (* [nan > threshold] is [False] *)
  | Finite anomaly_score =>
    let is_anomaly := bool_decide (anomaly_score > warning_level metric_name) in
    if is_anomaly then
      let severity := _determine_severity metric_name anomaly_score in
      confidence ← _calculate_confidence ensemble_results i;
      let description := _generate_description E metric_name value anomaly_score in
      let recommendations := _generate_recommendations metric_name value severity in
      mret (Some (mkAnomalyResult timestamp metric_name value is_anomaly
                    anomaly_score confidence severity description
                    recommendations))
    else mret None
  end.

Fixpoint detect_loop (E : Collaborators) (metric_name : string)
    (ensemble_results : list EnsembleVote) (i : nat)
    (points : list (R * datetime)) : exc (list AnomalyResult) :=
  match points with
  | [] => mret []
  | (value, timestamp) :: rest =>
    r ← detect_point E metric_name ensemble_results i value timestamp;
    anomalies ← detect_loop E metric_name ensemble_results (S i) rest;
    mret (option_list r ++ anomalies)
  end.

Definition detection_failed (e : string) : list LogEntry :=
  [LogError "Anomaly detection failed" e].

(** [detect_anomalies]: the returned list together with the log entries the
    call emits.  Every exception raised in the body is caught by the outer
    handler, which logs it and returns the empty list. *)
Definition detect_anomalies (E : Collaborators) (metric_name : string)
    (metric_data : MetricData) : list AnomalyResult * list LogEntry :=
  let values := values metric_data in
  let timestamps := timestamps metric_data in
  if bool_decide (length values < 10)%nat then ([], [])
  else
    match preprocess_time_series E values with
    | Raise e => ([], detection_failed e)
    | Ok processed_data =>
      let '(ensemble_results, log) :=
        _run_ensemble_detection E metric_name processed_data timestamps in
      match detect_loop E metric_name ensemble_results 0 (zip values timestamps) with
      | Raise e => ([], log ++ detection_failed e)
      | Ok anomalies => (anomalies, log)
      end
    end.

(** ** The detection cycle *)

(** [_process_anomalies], [_create_incident] and [_send_alert] only log. *)
Definition _process_anomalies (anomalies : list AnomalyResult) : list LogEntry :=
  flat_map
    (fun anomaly =>
       [LogWarning "Anomaly detected"]
       ++ (if decide (severity anomaly = Critical)
           then [LogInfo "Creating incident for critical anomaly"] else [])
       ++ [LogInfo "Sending alert"])
    anomalies.

(** The body of the loop of [_update_models] for one metric. *)
Definition update_buffer (db : gmap string (list R)) (metric_name : string)
    (metric_data : MetricData) : gmap string (list R) :=
  match db !! metric_name with
  | None => db
  | Some buffer =>
    let buffer := buffer ++ values metric_data in
    if bool_decide (buffer_size < length buffer)%nat
    then <[metric_name := tail_slice buffer_size buffer]> db
    else <[metric_name := buffer]> db
  end.

Definition _update_models (self : Detector)
    (metrics_data : list (string * MetricData)) : Detector :=
  mkDetector
    (foldl (fun db '(metric_name, metric_data) =>
              update_buffer db metric_name metric_data)
       (data_buffer self) metrics_data).

(** The values a batch of collected metrics holds for one metric, in the
    order of the batch: what [_update_models] appends to its buffer. *)
Definition inserted (metric_name : string)
    (metrics_data : list (string * MetricData)) : list R :=
  flat_map
    (fun '(name, metric_data) =>
       if decide (name = metric_name) then values metric_data else [])
    metrics_data.

(** The buffer updates of successive cycles. *)
Definition update_cycles (self : Detector)
    (batches : list (list (string * MetricData))) : Detector :=
  foldl _update_models self batches.

(** The loop of [run_detection_cycle] over [current_metrics.items()]. *)
Fixpoint detect_all (E : Collaborators)
    (current_metrics : list (string * MetricData))
  : list AnomalyResult * list LogEntry :=
  match current_metrics with
  | [] => ([], [])
  | (metric_name, metric_data) :: rest =>
    let '(anomaly_results, log) := detect_anomalies E metric_name metric_data in
    let '(anomalies, log') := detect_all E rest in
    (anomaly_results ++ anomalies, log ++ log')
  end.

(** [run_detection_cycle]; [collected] is what
    [metrics_collector.collect_all_metrics()] answers in this cycle. *)
Definition run_detection_cycle (E : Collaborators)
    (collected : exc (list (string * MetricData))) (self : Detector)
  : Detector * list LogEntry :=
  match collected with
  | Raise e => (self, [LogError "Anomaly detection cycle failed" e])
  | Ok current_metrics =>
    let '(anomalies, log) := detect_all E current_metrics in
    let log_process :=
      match anomalies with
      | [] => []
      | _ :: _ => _process_anomalies anomalies
      end in
    let self := _update_models self current_metrics in
    (self, log ++ log_process ++ [LogInfo "Anomaly detection cycle completed"])
  end.

(** [run_background_tasks] of [main.py], unrolled over the answers of the
    collaborators in successive iterations: the collected metrics, and
    whether [incident_manager.process_pending_incidents()] returns.  The
    [try] encloses the [while], so an exception that reaches it ends the
    loop. *)
Fixpoint run_background_tasks (E : Collaborators)
    (feed : list (exc (list (string * MetricData)) * exc unit))
    (self : Detector) : Detector * list LogEntry :=
  match feed with
  | [] => (self, [])
  | (collected, pending) :: rest =>
    let '(self, log) := run_detection_cycle E collected self in
    match pending with
    | Raise e => (self, log ++ [LogError "Background task error" e])
    | Ok _ =>
      let '(self, log') := run_background_tasks E rest self in
      (self, log ++ log')
    end
  end.

(** The entry with which a cycle ends: either handler of
    [run_detection_cycle] or its closing message. *)
Definition cycle_end (entry : LogEntry) : bool :=
  match entry with
  | LogError event _ => String.eqb event "Anomaly detection cycle failed"
  | LogInfo event => String.eqb event "Anomaly detection cycle completed"
  | LogWarning _ => false
  end.

(** ** Forecast *)

Definition _calculate_prediction_anomaly_score (predicted_value : R)
    (historical_data : list R) : R :=
  let mean_val := np_mean historical_data in
  let std_val := np_std historical_data in
  let z_score := Rabs (predicted_value - mean_val) / (std_val + 1e-8) in
  let anomaly_score := tanh (z_score / 3.0) in
  anomaly_score.

(** The body of the loop over [range(1, horizon + 1)]. *)
Definition predict_step (recent_data : list R) (now : datetime) (h : Z)
  : list ModelPrediction :=
  if bool_decide (10 <= length recent_data)%nat then
    let trend := np_mean (np_diff (tail_slice 10 recent_data)) in
    let predicted_value := List.last recent_data 0 + trend * IZR h in
    let std_dev := np_std (tail_slice 20 recent_data) in
    let confidence_interval :=
      [predicted_value - 2 * std_dev; predicted_value + 2 * std_dev] in
    let anomaly_score :=
      _calculate_prediction_anomaly_score predicted_value recent_data in
    [mkModelPrediction [predicted_value] [confidence_interval] [anomaly_score]
       "linear_trend" (now + 3600 * h)%Z]
  else [].

Definition predict_future_anomalies (self : Detector) (now : datetime)
    (metric_name : string) (horizon : Z) : list ModelPrediction :=
  match data_buffer self !! metric_name with
  | None => []
  | Some buffer =>
    if bool_decide (length buffer < 50)%nat then []
    else
      let recent_data := tail_slice 100 buffer in
      flat_map (predict_step recent_data now) (seqZ 1 horizon)
  end.

(** ** Model status *)

Record ModelStatus : Type := mkModelStatus {
  ms_status : string;
  ms_type : string
}.

Record StatusReport : Type := mkStatusReport {
  models : list (string * ModelStatus);
  data_buffer_sizes : gmap string nat;
  last_detection : datetime;
  total_anomalies_detected : Z
}.

(** [get_model_status].  Of [self.models], the slot ['transformer'] is
    [None] until [_load_transformer_model] stores a dictionary in it
    ([transformer_loaded]); the three other slots hold the objects built by
    [__init__], reported under their class names. *)
Definition get_model_status (transformer_loaded : bool) (self : Detector)
    (now : datetime) : StatusReport :=
  mkStatusReport
    [ ("transformer"%string,
       if transformer_loaded then mkModelStatus "active" "transformer"
       else mkModelStatus "inactive" "unknown");
      ("isolation_forest"%string, mkModelStatus "active" "IsolationForest");
      ("autoencoder"%string, mkModelStatus "active" "AutoEncoder");
      ("vae"%string, mkModelStatus "active" "VAE") ]
    (length <$> data_buffer self)
    now
    0.

(** ** Vocabulary of the statements *)

(** The order [info < warning < critical]. *)
Definition severity_rank (s : Severity) : nat :=
  match s with
  | Info => 0
  | Warning => 1
  | Critical => 2
  end.

Definition urgent_marker : string := "IMMEDIATE ACTION REQUIRED".

(** The metrics for which [_load_historical_data] creates a buffer. *)
Definition buffered_metrics : list string :=
  ["cpu"; "memory"; "disk"; "network"; "response_time"]%string.

(** Log entries by kind. *)
Definition is_alert (entry : LogEntry) : bool :=
  match entry with
  | LogInfo event => String.eqb event "Sending alert"
  | _ => false
  end.

Definition is_incident (entry : LogEntry) : bool :=
  match entry with
  | LogInfo event => String.eqb event "Creating incident for critical anomaly"
  | _ => false
  end.

Definition is_critical (anomaly : AnomalyResult) : bool :=
  bool_decide (severity anomaly = Critical).

(** The mean of the votes at an index every vote covers. *)
Definition mean_at (ensemble_results : list EnsembleVote) (i : nat) : R :=
  np_mean (map (fun v => nth i (scores v) 0) ensemble_results).

(** The points [detect_anomalies] is to report, with their scores: those
    whose mean vote exceeds the warning level, scanned from index [k]. *)
Fixpoint flagged_points (metric_name : string)
    (ensemble_results : list EnsembleVote) (k : nat)
    (points : list (R * datetime)) : list (R * datetime * R) :=
  match points with
  | [] => []
  | (value, timestamp) :: rest =>
    (if bool_decide (warning_level metric_name < mean_at ensemble_results k)
     then [(value, timestamp, mean_at ensemble_results k)] else [])
    ++ flagged_points metric_name ensemble_results (S k) rest
  end.

(** The message of the exception raised by indexing past the end. *)
Definition index_error : string := "index out of bounds".

(** A scoring exception inside [detect_anomalies], with the entry logged by
    the handler that catches it: the preprocessor raises, or one of the
    three fitted scorers raises when its turn comes, or indexing raises in
    the combination loop. *)
Inductive scoring_exception (E : Collaborators) (metric_name : string)
    (metric_data : MetricData) : LogEntry -> Prop :=
  | preprocessing_raises (e : string) :
      (10 <= length (values metric_data))%nat ->
      preprocess_time_series E (values metric_data) = Raise e ->
      scoring_exception E metric_name metric_data
        (LogError "Anomaly detection failed" e)
  | scorer_raises (data : list R) (e : string) :
      (10 <= length (values metric_data))%nat ->
      preprocess_time_series E (values metric_data) = Ok data ->
      (isolation_forest_decision_function E data = Raise e
       \/ (exists iso,
             isolation_forest_decision_function E data = Ok iso
             /\ autoencoder_decision_function E data = Raise e)
       \/ (exists iso ae,
             isolation_forest_decision_function E data = Ok iso
             /\ autoencoder_decision_function E data = Ok ae
             /\ vae_decision_function E data = Raise e)) ->
      scoring_exception E metric_name metric_data
        (LogError "Ensemble detection failed" e)
  | combination_raises (data : list R) (e : string) :
      (10 <= length (values metric_data))%nat ->
      preprocess_time_series E (values metric_data) = Ok data ->
      detect_loop E metric_name
        (_run_ensemble_detection E metric_name data
           (timestamps metric_data)).1
        0 (zip (values metric_data) (timestamps metric_data))
      = Raise e ->
      scoring_exception E metric_name metric_data
        (LogError "Anomaly detection failed" e).

(** A preprocessor that keeps the first [n] readings only. *)
Definition truncating_preprocessor (n : nat) (values : list R)
  : exc (list R) := Ok (take n values).

(** ** Collaborators of the worked examples *)

Definition identity_preprocessor (values : list R) : exc (list R) := Ok values.

Definition failing_preprocessor (msg : string) (values : list R)
  : exc (list R) := Raise msg.

(** A scorer that answers the same score at every point. *)
Definition constant_scorer (c : R) (data : list R) : exc (list R) :=
  Ok (replicate (length data) c).

Definition failing_scorer (msg : string) (data : list R) : exc (list R) :=
  Raise msg.

Definition example_collaborators
    (pre iso ae vae : list R -> exc (list R)) : Collaborators :=
  mkCollaborators pre iso ae vae
    (fun _ => ""%string) (fun _ => ""%string) (fun _ => ""%string).

(** A series with constant first difference [c], starting at [a]. *)
Fixpoint linear_series (a c : R) (n : nat) : list R :=
  match n with
  | O => []
  | S n => a :: linear_series (a + c) c n
  end.

(** Ten equal readings, one per second. *)
Definition flat_series (x : R) : MetricData :=
  mkMetricData (replicate 10 x) (seqZ 0 10).

(** * Properties *)

(** ** Real-number facts about [tanh] *)

Lemma tanh_0 : tanh 0 = 0.
Proof. unfold tanh. rewrite sinh_0. unfold Rdiv. apply Rmult_0_l. Qed.

Lemma exp_opp_le (z : R) : 0 <= z -> exp (- z) <= exp z.
Proof.
  intros [Hz | <-].
  - left. apply exp_increasing. lra.
  - rewrite Ropp_0. lra.
Qed.

Lemma tanh_range (z : R) : 0 <= z -> 0 <= tanh z < 1.
Proof.
  intros Hz. unfold tanh, sinh, cosh.
  pose proof (exp_pos z) as Hp. pose proof (exp_pos (- z)) as Hn.
  pose proof (exp_opp_le z Hz) as Hle.
  assert (Hc : 0 < (exp z + exp (- z)) / 2) by lra.
  split.
  - apply Rmult_le_pos; [lra |]. left. now apply Rinv_0_lt_compat.
  - apply (Rmult_lt_reg_r ((exp z + exp (- z)) / 2)); [exact Hc |].
    unfold Rdiv at 1. rewrite Rmult_assoc, Rinv_l by lra. lra.
Qed.

Lemma tanh_pos (z : R) : 0 < z -> 0 < tanh z.
Proof.
  intros Hz. unfold tanh, sinh, cosh.
  pose proof (exp_pos z) as Hp. pose proof (exp_pos (- z)) as Hn.
  assert (Hlt : exp (- z) < exp z) by (apply exp_increasing; lra).
  apply Rmult_lt_0_compat; [lra |]. apply Rinv_0_lt_compat. lra.
Qed.

(** ** numpy reductions *)

Lemma np_sum_app (l1 l2 : list R) : np_sum (l1 ++ l2) = np_sum l1 + np_sum l2.
Proof. induction l1 as [| x l1 IH]; simpl; [| rewrite IH]; lra. Qed.

Lemma np_sum_nonneg (l : list R) : Forall (Rle 0) l -> 0 <= np_sum l.
Proof. induction 1; simpl; lra. Qed.

Lemma np_sum_replicate (x : R) (n : nat) : np_sum (replicate n x) = INR n * x.
Proof.
  induction n as [| n IH]; [simpl; lra |].
  rewrite S_INR. cbn [replicate np_sum foldr]. fold (np_sum (replicate n x)).
  rewrite IH. lra.
Qed.

Lemma np_mean_nonneg (l : list R) : Forall (Rle 0) l -> 0 <= np_mean l.
Proof.
  intros Hl. unfold np_mean. destruct l as [| x l].
  - simpl. unfold Rdiv. rewrite Rmult_0_l. lra.
  - apply Rmult_le_pos; [now apply np_sum_nonneg |].
    left. apply Rinv_0_lt_compat, lt_0_INR. simpl. lia.
Qed.

Lemma np_mean_replicate (x : R) (n : nat) :
  (0 < n)%nat -> np_mean (replicate n x) = x.
Proof.
  intros Hn. unfold np_mean. rewrite np_sum_replicate, length_replicate.
  field. apply not_0_INR. lia.
Qed.

Lemma np_var_nonneg (l : list R) : 0 <= np_var l.
Proof.
  unfold np_var. apply np_mean_nonneg.
  generalize (np_mean l). intros m.
  induction l as [| x l IH]; simpl; [constructor |].
  constructor; [apply Rle_0_sqr | exact IH].
Qed.

Lemma np_std_nonneg (l : list R) : 0 <= np_std l.
Proof. apply sqrt_pos. Qed.

Lemma np_var_replicate (x : R) (n : nat) : np_var (replicate n x) = 0.
Proof.
  unfold np_var. destruct n as [| n].
  - simpl. unfold np_mean. simpl. unfold Rdiv. apply Rmult_0_l.
  - rewrite np_mean_replicate by lia.
    replace (map _ (replicate (S n) x)) with (replicate (S n) 0).
    + apply np_mean_replicate. lia.
    + generalize (S n). intros k. induction k as [| k IH]; [reflexivity |].
      simpl. f_equal; [lra | exact IH].
Qed.

Lemma np_std_replicate (x : R) (n : nat) : np_std (replicate n x) = 0.
Proof. unfold np_std. rewrite np_var_replicate. apply sqrt_0. Qed.


(** ** Slices *)

Lemma tail_slice_length {A : Type} (n : nat) (l : list A) :
  length (tail_slice n l) = Nat.min n (length l).
Proof. unfold tail_slice. rewrite length_drop. lia. Qed.

Lemma tail_slice_all {A : Type} (n : nat) (l : list A) :
  (length l <= n)%nat -> tail_slice n l = l.
Proof.
  intros H. unfold tail_slice. replace (length l - n)%nat with 0%nat by lia.
  reflexivity.
Qed.

Lemma tail_slice_app {A : Type} (n : nat) (l1 l2 : list A) :
  length l2 = n -> tail_slice n (l1 ++ l2) = l2.
Proof.
  intros H. unfold tail_slice. rewrite length_app.
  replace (length l1 + length l2 - n)%nat with (length l1) by lia.
  apply drop_app_length.
Qed.

(** Keeping the last [n] of the last [n] elements followed by new ones is
    keeping the last [n] of everything. *)
Lemma tail_slice_absorb {A : Type} (n : nat) (l1 l2 : list A) :
  tail_slice n (tail_slice n l1 ++ l2) = tail_slice n (l1 ++ l2).
Proof.
  unfold tail_slice. rewrite !length_app, length_drop.
  destruct (decide (length l1 <= n)%nat) as [Hle | Hgt].
  - replace (length l1 - n)%nat with 0%nat by lia. simpl.
    now rewrite Nat.sub_0_r.
  - rewrite !drop_app, drop_drop, length_drop.
    f_equal; f_equal; lia.
Qed.

(** ** The statistical scorer *)

Lemma Rabs_div_pos (a b : R) : 0 < b -> Rabs (a / b) = Rabs a / b.
Proof.
  intros Hb. unfold Rdiv. rewrite Rabs_mult, Rabs_inv.
  rewrite (Rabs_pos_eq b) by lra. reflexivity.
Qed.

Lemma std_eps_pos (l : list R) : 0 < np_std l + 1e-8.
Proof. pose proof (np_std_nonneg l). lra. Qed.

Lemma z_score_nonneg (x m : R) (l : list R) :
  0 <= Rabs (x - m) / (np_std l + 1e-8).
Proof.
  apply Rmult_le_pos; [apply Rabs_pos |].
  left. apply Rinv_0_lt_compat, std_eps_pos.
Qed.

Lemma transformer_scores_eq (data : list R) :
  _transformer_anomaly_detection data
  = map (fun x => tanh (Rabs (x - np_mean data) / (np_std data + 1e-8) / 3)) data.
Proof.
  unfold _transformer_anomaly_detection. rewrite map_map.
  apply map_ext. intros x.
  rewrite Rabs_div_pos by apply std_eps_pos. f_equal. lra.
Qed.


Lemma transformer_length (data : list R) :
  length (_transformer_anomaly_detection data) = length data.
Proof. unfold _transformer_anomaly_detection. now rewrite !length_map. Qed.

(** A constant series is scored zero everywhere. *)
Lemma transformer_constant (x : R) (n : nat) :
  _transformer_anomaly_detection (replicate n x) = replicate n 0.
Proof.
  rewrite transformer_scores_eq. destruct n as [| n]; [reflexivity |].
  rewrite np_mean_replicate, np_std_replicate by lia.
  generalize (S n). intros k. induction k as [| k IH]; [reflexivity |].
  simpl. f_equal; [| exact IH].
  replace (Rabs (x - x) / (0 + 1e-8) / 3) with 0; [apply tanh_0 |].
  replace (x - x) with 0 by lra. rewrite Rabs_R0. lra.
Qed.


(** ** Ensemble combination *)

Lemma lookup_map {A B : Type} (f : A -> B) (l : list A) (i : nat) :
  map f l !! i = f <$> (l !! i).
Proof. exact (list_lookup_fmap f l i). Qed.

Lemma scores_at_cons (v : EnsembleVote) (rest : list EnsembleVote)
    (i : nat) (s : R) (tl : list R) :
  scores v !! i = Some s -> scores_at rest i = Ok tl ->
  scores_at (v :: rest) i = Ok (s :: tl).
Proof. intros Hs Htl. simpl. rewrite Hs, Htl. reflexivity. Qed.

Lemma scores_at_length (results : list EnsembleVote) (i : nat) (ss : list R) :
  scores_at results i = Ok ss -> length ss = length results.
Proof.
  revert ss. induction results as [| v rest IH]; intros ss; simpl.
  - now intros [= <-].
  - destruct (scores v !! i) as [s |]; [| discriminate].
    destruct (scores_at rest i) as [tl |]; [| discriminate].
    intros [= <-]. simpl. f_equal. now apply IH.
Qed.


(** Whatever the number of votes, the combined score is their plain mean. *)
Lemma combined_is_mean (results : list EnsembleVote) (i : nat) (ss : list R) :
  scores_at results i = Ok ss -> results <> [] ->
  combined_anomaly_score results i
  = Ok (Finite (np_sum ss / INR (length results))).
Proof.
  intros Hss Hne. unfold combined_anomaly_score. rewrite Hss. simpl.
  rewrite <- (scores_at_length _ _ _ Hss).
  destruct ss as [| s ss]; [| reflexivity].
  apply scores_at_length in Hss. destruct results; [congruence | discriminate].
Qed.

Lemma run_ensemble_all_ok (E : Collaborators) (metric_name : string)
    (data : list R) (ts : list datetime) (iso ae vae : list R) :
  isolation_forest_decision_function E data = Ok iso ->
  autoencoder_decision_function E data = Ok ae ->
  vae_decision_function E data = Ok vae ->
  _run_ensemble_detection E metric_name data ts
  = ([ mkVote "isolation_forest" (map Ropp iso) 0.3;
       mkVote "autoencoder" ae 0.3;
       mkVote "v ae" vae 0.2;
       mkVote "transformer" (_transformer_anomaly_detection data) 0.2 ], []).
Proof.
  intros Hiso Hae Hvae. unfold _run_ensemble_detection.
  rewrite Hiso, Hae, Hvae. reflexivity.
Qed.



(** ** Classification of one point *)

Lemma warning_level_eq (metric_name : string) :
  warning_level metric_name
  = warning (default (mkThreshold 0.7 0.9) (thresholds !! metric_name)).
Proof. unfold warning_level. now destruct (thresholds !! metric_name). Qed.

Lemma warning_level_unknown (metric_name : string) :
  thresholds !! metric_name = None -> warning_level metric_name = 0.7.
Proof. unfold warning_level. now intros ->. Qed.

(** The three tiers of [_determine_severity], read off the thresholds of the
    metric (0.7 and 0.9 when the metric is unknown). *)
Lemma determine_severity_tiers (metric_name : string) (s : R) :
  let t := default (mkThreshold 0.7 0.9) (thresholds !! metric_name) in
  (_determine_severity metric_name s = Critical <-> critical t <= s)
  /\ (_determine_severity metric_name s = Warning
      <-> s < critical t /\ warning t <= s)
  /\ (_determine_severity metric_name s = Info
      <-> s < critical t /\ s < warning t).
Proof.
  intros t. unfold _determine_severity. fold t.
  repeat case_bool_decide; repeat split; intros; try discriminate;
    try reflexivity; lra.
Qed.

(** The severity of a score above the warning level is never [Info]. *)
Lemma severity_above_warning (metric_name : string) (s : R) :
  warning_level metric_name <= s -> _determine_severity metric_name s <> Info.
Proof.
  rewrite warning_level_eq. unfold _determine_severity. intros Hs.
  repeat case_bool_decide; congruence.
Qed.

Lemma detect_point_nan (E : Collaborators) (metric_name : string)
    (results : list EnsembleVote) (i : nat) (value : R) (t : datetime) :
  combined_anomaly_score results i = Ok NaN ->
  detect_point E metric_name results i value t = Ok None.
Proof. intros H. unfold detect_point. rewrite H. reflexivity. Qed.

(** A point whose combined score does not exceed the warning level is not
    flagged; this includes a score equal to the level. *)
Lemma detect_point_not_above (E : Collaborators) (metric_name : string)
    (results : list EnsembleVote) (i : nat) (value : R) (t : datetime) (s : R) :
  combined_anomaly_score results i = Ok (Finite s) ->
  s <= warning_level metric_name ->
  detect_point E metric_name results i value t = Ok None.
Proof.
  intros H Hs. unfold detect_point. rewrite H. cbn.
  rewrite bool_decide_eq_false_2 by lra. reflexivity.
Qed.

Lemma detect_point_above (E : Collaborators) (metric_name : string)
    (results : list EnsembleVote) (i : nat) (value : R) (t : datetime)
    (s c : R) :
  combined_anomaly_score results i = Ok (Finite s) ->
  warning_level metric_name < s ->
  _calculate_confidence results i = Ok c ->
  detect_point E metric_name results i value t
  = Ok (Some (mkAnomalyResult t metric_name value true s c
                (_determine_severity metric_name s)
                (_generate_description E metric_name value s)
                (_generate_recommendations metric_name value
                   (_determine_severity metric_name s)))).
Proof.
  intros H Hs Hc. unfold detect_point. rewrite H. cbn.
  rewrite bool_decide_eq_true_2 by lra. rewrite Hc. reflexivity.
Qed.

(** Inversion: what is known of a flagged point. *)
Lemma detect_point_flagged (E : Collaborators) (metric_name : string)
    (results : list EnsembleVote) (i : nat) (value : R) (t : datetime)
    (a : AnomalyResult) :
  detect_point E metric_name results i value t = Ok (Some a) ->
  combined_anomaly_score results i = Ok (Finite (anomaly_score a))
  /\ warning_level metric_name < anomaly_score a
  /\ is_anomaly a = true
  /\ severity a = _determine_severity metric_name (anomaly_score a)
  /\ _calculate_confidence results i = Ok (confidence a).
Proof.
  unfold detect_point.
  destruct (combined_anomaly_score results i) as [[s |] |]; cbn;
    try discriminate.
  case_bool_decide as Hs; [| discriminate].
  destruct (_calculate_confidence results i) as [c |]; cbn; [| discriminate].
  intros [= <-]. cbn. repeat split; try reflexivity. exact Hs.
Qed.

(** When no point of the series is flagged, the loop returns no anomaly. *)
Lemma detect_loop_none (E : Collaborators) (metric_name : string)
    (results : list EnsembleVote) (points : list (R * datetime)) (i : nat) :
  (forall j value t, (i <= j < i + length points)%nat ->
     detect_point E metric_name results j value t = Ok None) ->
  detect_loop E metric_name results i points = Ok [].
Proof.
  revert i. induction points as [| [value t] rest IH]; intros i H; simpl.
  - reflexivity.
  - rewrite H by (simpl; lia). cbn.
    rewrite IH; [reflexivity |]. intros j v' t' Hj. apply H. simpl. lia.
Qed.

(** Every anomaly the loop returns comes from a flagged point. *)
Lemma detect_loop_flagged (E : Collaborators) (metric_name : string)
    (results : list EnsembleVote) (points : list (R * datetime)) (i : nat)
    (anomalies : list AnomalyResult) :
  detect_loop E metric_name results i points = Ok anomalies ->
  Forall (fun a => exists j value t,
            detect_point E metric_name results j value t = Ok (Some a))
    anomalies.
Proof.
  revert i anomalies. induction points as [| [value t] rest IH];
    intros i anomalies; simpl.
  - intros [= <-]. constructor.
  - destruct (detect_point E metric_name results i value t) as [r |] eqn:Hr;
      cbn; [| discriminate].
    destruct (detect_loop E metric_name results (S i) rest) as [tl |] eqn:Htl;
      cbn; [| discriminate].
    intros [= <-]. apply Forall_app. split; [| now apply (IH (S i))].
    destruct r as [a |]; simpl; [| constructor].
    constructor; [| constructor]. now exists i, value, t.
Qed.

(** Every result returned by [detect_anomalies] is flagged, carries a score
    strictly above the warning level, and has severity warning or critical. *)
Lemma detect_anomalies_emitted (E : Collaborators) (metric_name : string)
    (metric_data : MetricData) :
  Forall (fun a => is_anomaly a = true
                   /\ warning_level metric_name < anomaly_score a
                   /\ severity a = _determine_severity metric_name (anomaly_score a)
                   /\ severity a <> Info)
    (detect_anomalies E metric_name metric_data).1.
Proof.
  unfold detect_anomalies. case_bool_decide; [constructor |].
  destruct (preprocess_time_series E (values metric_data)) as [data |];
    [| constructor].
  destruct (_run_ensemble_detection E metric_name data (timestamps metric_data))
    as [results log].
  destruct (detect_loop E metric_name results 0
              (zip (values metric_data) (timestamps metric_data)))
    as [anomalies |] eqn:Hloop; [| constructor].
  cbn [fst]. apply detect_loop_flagged in Hloop.
  eapply Forall_impl; [exact Hloop |].
  intros a (j & value & t & Ha). apply detect_point_flagged in Ha.
  destruct Ha as (_ & Hs & Hflag & Hsev & _).
  repeat split; try assumption.
  rewrite Hsev. apply severity_above_warning. lra.
Qed.

(** ** Worked example: constant scorers on a flat series *)

Lemma scores_at_replicate (results : list EnsembleVote) (cs : list R)
    (n j : nat) :
  Forall2 (fun v c => scores v = replicate n c) results cs -> (j < n)%nat ->
  scores_at results j = Ok cs.
Proof.
  intros H Hj. induction H as [| v c results cs Hv _ IH]; [reflexivity |].
  apply scores_at_cons; [| exact IH].
  rewrite Hv. now apply lookup_replicate_2.
Qed.

Lemma threshold_memory : warning_level "memory" = 0.75.
Proof. reflexivity. Qed.

Lemma threshold_cpu : warning_level "cpu" = 0.7.
Proof. reflexivity. Qed.

(** The votes obtained from constant scorers on a flat series of ten
    readings. *)
Lemma run_ensemble_constant (pre : list R -> exc (list R)) (a b c x : R)
    (metric_name : string) (ts : list datetime) :
  _run_ensemble_detection
    (example_collaborators pre (constant_scorer a) (constant_scorer b)
       (constant_scorer c))
    metric_name (replicate 10 x) ts
  = ([ mkVote "isolation_forest" (replicate 10 (- a)) 0.3;
       mkVote "autoencoder" (replicate 10 b) 0.3;
       mkVote "v ae" (replicate 10 c) 0.2;
       mkVote "transformer" (replicate 10 0) 0.2 ], []).
Proof.
  rewrite (run_ensemble_all_ok _ metric_name (replicate 10 x) ts
             (replicate 10 a) (replicate 10 b) (replicate 10 c));
    [| reflexivity ..].
  rewrite transformer_constant. reflexivity.
Qed.

Lemma combined_constant (a b c : R) (j : nat) :
  (j < 10)%nat ->
  combined_anomaly_score
    [ mkVote "isolation_forest" (replicate 10 (- a)) 0.3;
      mkVote "autoencoder" (replicate 10 b) 0.3;
      mkVote "v ae" (replicate 10 c) 0.2;
      mkVote "transformer" (replicate 10 0) 0.2 ] j
  = Ok (Finite ((- a + b + c + 0) / 4)).
Proof.
  intros Hj.
  rewrite (combined_is_mean _ j [- a; b; c; 0]); [| | discriminate].
  - do 2 f_equal. simpl. lra.
  - apply (scores_at_replicate _ _ 10); [| exact Hj].
    repeat constructor.
Qed.

(** C1, at the boundary: on the metric [memory] (warning level 0.75), a
    series each of whose points has combined score exactly 0.75 is classified
    [Warning] by [_determine_severity], yet [detect_anomalies] flags no point
    and returns the empty list. *)
Theorem C1_score_equal_to_warning_is_not_flagged :
  let E := example_collaborators identity_preprocessor
             (constant_scorer (- 0.25)) (constant_scorer 1.5)
             (constant_scorer 1.25) in
  let results :=
    (_run_ensemble_detection E "memory" (replicate 10 50) (seqZ 0 10)).1 in
  (forall i, (i < 10)%nat ->
     combined_anomaly_score results i = Ok (Finite (warning_level "memory")))
  /\ _determine_severity "memory" (warning_level "memory") = Warning
  /\ detect_anomalies E "memory" (flat_series 50) = ([], []).
Proof.
  intros E results. subst E results. rewrite run_ensemble_constant. cbn [fst].
  assert (Hscore : forall i, (i < 10)%nat ->
    combined_anomaly_score
      [ mkVote "isolation_forest" (replicate 10 (- - 0.25)) 0.3;
        mkVote "autoencoder" (replicate 10 1.5) 0.3;
        mkVote "v ae" (replicate 10 1.25) 0.2;
        mkVote "transformer" (replicate 10 0) 0.2 ] i
    = Ok (Finite (warning_level "memory"))).
  { intros i Hi. rewrite combined_constant by exact Hi.
    rewrite threshold_memory. do 2 f_equal. lra. }
  split; [exact Hscore |]. split.
  - rewrite threshold_memory. unfold _determine_severity.
    change (thresholds !! "memory"%string) with (Some (mkThreshold 0.75 0.9)).
    cbn [default from_option Datatypes.id critical warning].
    repeat case_bool_decide; try reflexivity; lra.
  - unfold detect_anomalies, flat_series. cbn [values timestamps].
    rewrite bool_decide_eq_false_2 by (rewrite length_replicate; lia).
    change (preprocess_time_series _ (replicate 10 50))
      with (Ok (replicate 10 50)).
    cbv beta iota. rewrite run_ensemble_constant.
    rewrite detect_loop_none; [reflexivity |].
    intros j value t Hj.
    apply (detect_point_not_above _ _ _ _ _ _ (warning_level "memory"));
      [| lra].
    apply Hscore. rewrite length_zip, length_replicate, length_seqZ in Hj. lia.
Qed.

(** ** Short series *)

(** C4: on a series of fewer than ten values [detect_anomalies] returns the
    empty list, and nothing is raised or logged. *)
Theorem C4_short_series_yield_nothing (E : Collaborators)
    (metric_name : string) (metric_data : MetricData) :
  (length (values metric_data) < 10)%nat ->
  detect_anomalies E metric_name metric_data = ([], []).
Proof.
  intros Hlen. unfold detect_anomalies.
  now rewrite bool_decide_eq_true_2.
Qed.

Lemma C4_short_series_witness :
  detect_anomalies
    (example_collaborators (failing_preprocessor "unused")
       (failing_scorer "unused") (failing_scorer "unused")
       (failing_scorer "unused"))
    "cpu" (mkMetricData [50; 50; 95] [0; 1; 2]%Z)
  = ([], []).
Proof.
  apply C4_short_series_yield_nothing. simpl. lia.
Defined.

(** ** Failures inside [detect_anomalies] *)

Lemma detect_anomalies_preprocess_raises (E : Collaborators)
    (metric_name : string) (metric_data : MetricData) (e : string) :
  (10 <= length (values metric_data))%nat ->
  preprocess_time_series E (values metric_data) = Raise e ->
  detect_anomalies E metric_name metric_data = ([], detection_failed e).
Proof.
  intros Hlen Hpre. unfold detect_anomalies.
  rewrite bool_decide_eq_false_2 by lia. now rewrite Hpre.
Qed.

Lemma detect_anomalies_loop (E : Collaborators) (metric_name : string)
    (metric_data : MetricData) (data : list R)
    (results : list EnsembleVote) (log : list LogEntry) :
  (10 <= length (values metric_data))%nat ->
  preprocess_time_series E (values metric_data) = Ok data ->
  _run_ensemble_detection E metric_name data (timestamps metric_data)
  = (results, log) ->
  detect_anomalies E metric_name metric_data
  = match detect_loop E metric_name results 0
            (zip (values metric_data) (timestamps metric_data)) with
    | Ok anomalies => (anomalies, log)
    | Raise e => ([], log ++ detection_failed e)
    end.
Proof.
  intros Hlen Hpre Hrun. unfold detect_anomalies.
  rewrite bool_decide_eq_false_2 by lia. rewrite Hpre, Hrun.
  now destruct (detect_loop _ _ _ _ _).
Qed.

(** With no vote at all the mean is NaN and no point is flagged. *)
Lemma detect_loop_no_votes (E : Collaborators) (metric_name : string)
    (points : list (R * datetime)) (i : nat) :
  detect_loop E metric_name [] i points = Ok [].
Proof. apply detect_loop_none. intros j value t _. reflexivity. Qed.

Lemma run_ensemble_first_raises (E : Collaborators) (metric_name : string)
    (data : list R) (ts : list datetime) (e : string) :
  isolation_forest_decision_function E data = Raise e ->
  _run_ensemble_detection E metric_name data ts = ([], ensemble_failed e).
Proof. intros H. unfold _run_ensemble_detection. now rewrite H. Qed.

Lemma run_ensemble_second_raises (E : Collaborators) (metric_name : string)
    (data : list R) (ts : list datetime) (iso : list R) (e : string) :
  isolation_forest_decision_function E data = Ok iso ->
  autoencoder_decision_function E data = Raise e ->
  _run_ensemble_detection E metric_name data ts
  = ([mkVote "isolation_forest" (map Ropp iso) 0.3], ensemble_failed e).
Proof. intros H1 H2. unfold _run_ensemble_detection. now rewrite H1, H2. Qed.

Lemma run_ensemble_third_raises (E : Collaborators) (metric_name : string)
    (data : list R) (ts : list datetime) (iso ae : list R) (e : string) :
  isolation_forest_decision_function E data = Ok iso ->
  autoencoder_decision_function E data = Ok ae ->
  vae_decision_function E data = Raise e ->
  _run_ensemble_detection E metric_name data ts
  = ([ mkVote "isolation_forest" (map Ropp iso) 0.3;
       mkVote "autoencoder" ae 0.3 ], ensemble_failed e).
Proof.
  intros H1 H2 H3. unfold _run_ensemble_detection. now rewrite H1, H2, H3.
Qed.

(** When every point of the series is flagged, the loop returns one anomaly
    per point. *)
Lemma detect_loop_all (E : Collaborators) (metric_name : string)
    (results : list EnsembleVote) (points : list (R * datetime)) (i : nat) :
  (forall j value t, (i <= j < i + length points)%nat ->
     exists a, detect_point E metric_name results j value t = Ok (Some a)) ->
  exists anomalies,
    detect_loop E metric_name results i points = Ok anomalies
    /\ length anomalies = length points.
Proof.
  revert i. induction points as [| [value t] rest IH]; intros i H; simpl.
  - now exists [].
  - destruct (H i value t) as [a Ha]; [simpl; lia |].
    destruct (IH (S i)) as (tl & Htl & Hlen).
    { intros j v' t' Hj. apply H. simpl. lia. }
    exists (a :: tl). rewrite Ha. cbn. rewrite Htl. cbn.
    split; [reflexivity | now rewrite Hlen].
Qed.

(** C10, as stated, fails: with the isolation forest and the auto-encoder
    answering and the VAE scorer raising, the failure is caught inside
    [_run_ensemble_detection] and [detect_anomalies] goes on to flag points
    from the two votes gathered before it. *)
Lemma C10_counterexample_scorer_failure_still_flags :
  let E := example_collaborators identity_preprocessor
             (constant_scorer 0) (constant_scorer 2)
             (failing_scorer "vae failed") in
  vae_decision_function E (replicate 10 50) = Raise "vae failed"
  /\ (detect_anomalies E "cpu" (flat_series 50)).1 <> [].
Proof.
  intros E. split; [reflexivity |].
  rewrite (detect_anomalies_loop E "cpu" (flat_series 50) (replicate 10 50)
             [ mkVote "isolation_forest" (replicate 10 (- 0)) 0.3;
               mkVote "autoencoder" (replicate 10 2) 0.3 ]
             (ensemble_failed "vae failed"));
    [| simpl; lia | reflexivity | reflexivity].
  destruct (detect_loop_all E "cpu"
              [ mkVote "isolation_forest" (replicate 10 (- 0)) 0.3;
                mkVote "autoencoder" (replicate 10 2) 0.3 ]
              (zip (values (flat_series 50)) (timestamps (flat_series 50))) 0)
    as (anomalies & -> & Hlen).
  - intros j value t Hj.
    assert (Hj10 : (j < 10)%nat) by (simpl in Hj; lia).
    assert (Hs : scores_at
              [ mkVote "isolation_forest" (replicate 10 (- 0)) 0.3;
                mkVote "autoencoder" (replicate 10 2) 0.3 ] j = Ok [- 0; 2]).
    { apply (scores_at_replicate _ _ 10); [repeat constructor | exact Hj10]. }
    eexists. apply (detect_point_above _ _ _ _ _ _ (np_sum [- 0; 2] / INR 2)).
    + rewrite (combined_is_mean _ j [- 0; 2] Hs); [reflexivity | discriminate].
    + rewrite threshold_cpu. simpl. lra.
    + unfold _calculate_confidence. rewrite Hs. reflexivity.
  - cbn [fst]. intros ->. discriminate Hlen.
Qed.

(** C10, amended: [detect_anomalies] is total, so nothing is ever raised to
    the caller.  On a series of at least ten values, a failure of the
    preprocessor or of the combination loop is caught by the outer handler
    and the call returns the empty list; a failure of the first scorer
    leaves no vote and the call returns the empty list; a failure of a later
    scorer is caught inside [_run_ensemble_detection], which keeps the votes
    gathered so far, and the call returns whatever the combination loop
    yields on those votes. *)
Theorem C10_failures_are_caught (E : Collaborators) (metric_name : string)
    (metric_data : MetricData) :
  (10 <= length (values metric_data))%nat ->
  let points := zip (values metric_data) (timestamps metric_data) in
  (forall e,
     preprocess_time_series E (values metric_data) = Raise e ->
     detect_anomalies E metric_name metric_data = ([], detection_failed e))
  /\ (forall data results log e,
        preprocess_time_series E (values metric_data) = Ok data ->
        _run_ensemble_detection E metric_name data (timestamps metric_data)
        = (results, log) ->
        detect_loop E metric_name results 0 points = Raise e ->
        detect_anomalies E metric_name metric_data
        = ([], log ++ detection_failed e))
  /\ (forall data e,
        preprocess_time_series E (values metric_data) = Ok data ->
        isolation_forest_decision_function E data = Raise e ->
        detect_anomalies E metric_name metric_data = ([], ensemble_failed e))
  /\ (forall data iso e,
        preprocess_time_series E (values metric_data) = Ok data ->
        isolation_forest_decision_function E data = Ok iso ->
        autoencoder_decision_function E data = Raise e
        \/ (exists ae, autoencoder_decision_function E data = Ok ae
                       /\ vae_decision_function E data = Raise e) ->
        exists votes,
          _run_ensemble_detection E metric_name data (timestamps metric_data)
          = (votes, ensemble_failed e)
          /\ votes <> []
          /\ detect_anomalies E metric_name metric_data
             = match detect_loop E metric_name votes 0 points with
               | Ok anomalies => (anomalies, ensemble_failed e)
               | Raise e' => ([], ensemble_failed e ++ detection_failed e')
               end).
Proof.
  intros Hlen points. repeat split.
  - intros e. now apply detect_anomalies_preprocess_raises.
  - intros data results log e Hpre Hrun Hloop.
    rewrite (detect_anomalies_loop _ _ _ _ _ _ Hlen Hpre Hrun).
    fold points. now rewrite Hloop.
  - intros data e Hpre Hiso.
    rewrite (detect_anomalies_loop _ _ _ data [] (ensemble_failed e) Hlen Hpre)
      by now apply run_ensemble_first_raises.
    now rewrite detect_loop_no_votes.
  - intros data iso e Hpre Hiso [Hae | (ae & Hae & Hvae)].
    + exists [mkVote "isolation_forest" (map Ropp iso) 0.3].
      pose proof (run_ensemble_second_raises E metric_name data
                    (timestamps metric_data) iso e Hiso Hae) as Hrun.
      split; [exact Hrun |]. split; [discriminate |].
      apply (detect_anomalies_loop _ _ _ _ _ _ Hlen Hpre Hrun).
    + exists [ mkVote "isolation_forest" (map Ropp iso) 0.3;
               mkVote "autoencoder" ae 0.3 ].
      pose proof (run_ensemble_third_raises E metric_name data
                    (timestamps metric_data) iso ae e Hiso Hae Hvae) as Hrun.
      split; [exact Hrun |]. split; [discriminate |].
      apply (detect_anomalies_loop _ _ _ _ _ _ Hlen Hpre Hrun).
Qed.

Lemma C10_failures_are_caught_witness :
  detect_anomalies
    (example_collaborators (failing_preprocessor "bad sample")
       (constant_scorer 0) (constant_scorer 2) (constant_scorer 1))
    "cpu" (flat_series 50)
  = ([], detection_failed "bad sample").
Proof.
  assert (Hlen : (10 <= length (values (flat_series 50)))%nat)
    by (simpl; lia).
  apply (proj1 (C10_failures_are_caught
                  (example_collaborators (failing_preprocessor "bad sample")
                     (constant_scorer 0) (constant_scorer 2)
                     (constant_scorer 1))
                  "cpu" (flat_series 50) Hlen)).
  reflexivity.
Defined.

(** ** The detection cycle and the background loop *)

Lemma run_cycle_buffers (E : Collaborators)
    (current_metrics : list (string * MetricData)) (self : Detector) :
  (run_detection_cycle E (Ok current_metrics) self).1
  = _update_models self current_metrics.
Proof.
  unfold run_detection_cycle.
  now destruct (detect_all E current_metrics) as [anomalies log].
Qed.

Lemma detect_all_log (E : Collaborators)
    (current_metrics : list (string * MetricData))
    (metric_name : string) (metric_data : MetricData) (entry : LogEntry) :
  In (metric_name, metric_data) current_metrics ->
  In entry (detect_anomalies E metric_name metric_data).2 ->
  In entry (detect_all E current_metrics).2.
Proof.
  intros Hin Hentry.
  induction current_metrics as [| [name md] rest IH]; [contradiction |].
  simpl. destruct (detect_anomalies E name md) as [found log] eqn:Hd.
  destruct (detect_all E rest) as [anomalies log']. cbn [snd] in *.
  apply in_or_app. destruct Hin as [[= -> ->] | Hin].
  - left. now rewrite Hd in Hentry.
  - right. now apply IH.
Qed.

Lemma run_cycle_log (E : Collaborators)
    (current_metrics : list (string * MetricData)) (self : Detector)
    (entry : LogEntry) :
  In entry (detect_all E current_metrics).2 ->
  In entry (run_detection_cycle E (Ok current_metrics) self).2.
Proof.
  unfold run_detection_cycle.
  destruct (detect_all E current_metrics) as [anomalies log]. cbn [snd].
  intros H. apply in_or_app. now left.
Qed.

(** C9, as stated, fails for scoring exceptions: the preprocessor raises on
    the only metric of the cycle, [detect_anomalies] catches and logs the
    exception, the cycle runs to completion, and the buffer of that metric
    is advanced by the ten values of the cycle. *)
Lemma C9_counterexample_scoring_failure_advances_buffer :
  let E := example_collaborators (failing_preprocessor "bad sample")
             (constant_scorer 0) (constant_scorer 2) (constant_scorer 1) in
  let before := _load_historical_data init in
  let cycle :=
    run_detection_cycle E (Ok [("cpu"%string, flat_series 50)]) before in
  cycle.2 = [ LogError "Anomaly detection failed" "bad sample";
              LogInfo "Anomaly detection cycle completed" ]
  /\ data_buffer before !! "cpu"%string = Some []
  /\ data_buffer cycle.1 !! "cpu"%string = Some (replicate 10 50).
Proof.
  intros E before cycle. repeat split; reflexivity.
Qed.

Lemma run_ensemble_log_no_cycle_end (E : Collaborators) (metric_name : string)
    (data : list R) (ts : list datetime) :
  List.filter cycle_end (_run_ensemble_detection E metric_name data ts).2 = [].
Proof.
  unfold _run_ensemble_detection.
  destruct (isolation_forest_decision_function E data); [| reflexivity].
  destruct (autoencoder_decision_function E data); [| reflexivity].
  destruct (vae_decision_function E data); reflexivity.
Qed.

Lemma detect_anomalies_log_no_cycle_end (E : Collaborators)
    (metric_name : string) (metric_data : MetricData) :
  List.filter cycle_end (detect_anomalies E metric_name metric_data).2 = [].
Proof.
  unfold detect_anomalies. case_bool_decide; [reflexivity |].
  destruct (preprocess_time_series E (values metric_data)) as [data |];
    [| reflexivity].
  pose proof (run_ensemble_log_no_cycle_end E metric_name data
                (timestamps metric_data)) as Hlog.
  destruct (_run_ensemble_detection E metric_name data (timestamps metric_data))
    as [results log]. cbn [snd] in Hlog.
  destruct (detect_loop _ _ _ _ _); cbn [snd]; [exact Hlog |].
  rewrite List.filter_app, Hlog. reflexivity.
Qed.

Lemma detect_all_log_no_cycle_end (E : Collaborators)
    (current_metrics : list (string * MetricData)) :
  List.filter cycle_end (detect_all E current_metrics).2 = [].
Proof.
  induction current_metrics as [| [name md] rest IH]; [reflexivity |].
  simpl. pose proof (detect_anomalies_log_no_cycle_end E name md) as Hd.
  destruct (detect_anomalies E name md) as [found log].
  destruct (detect_all E rest) as [anomalies log']. cbn [snd] in *.
  now rewrite List.filter_app, Hd, IH.
Qed.

Lemma process_anomalies_no_cycle_end (anomalies : list AnomalyResult) :
  List.filter cycle_end (_process_anomalies anomalies) = [].
Proof.
  unfold _process_anomalies.
  induction anomalies as [| a rest IH]; [reflexivity |].
  cbn [flat_map]. rewrite !List.filter_app, IH.
  now destruct (decide (severity a = Critical)).
Qed.

(** Every cycle, failed or not, ends with exactly one closing entry. *)
Lemma run_cycle_ends_once (E : Collaborators)
    (collected : exc (list (string * MetricData))) (self : Detector) :
  length (List.filter cycle_end (run_detection_cycle E collected self).2)
  = 1%nat.
Proof.
  unfold run_detection_cycle. destruct collected as [current_metrics | e];
    [| reflexivity].
  pose proof (detect_all_log_no_cycle_end E current_metrics) as Hd.
  destruct (detect_all E current_metrics) as [anomalies log]. cbn [snd] in *.
  rewrite !List.filter_app, Hd.
  destruct anomalies; [reflexivity |].
  now rewrite process_anomalies_no_cycle_end.
Qed.

Lemma background_loop_runs_every_cycle (E : Collaborators)
    (feed : list (exc (list (string * MetricData)) * exc unit))
    (self : Detector) :
  Forall (fun answers => exists u, answers.2 = Ok u) feed ->
  length (List.filter cycle_end (run_background_tasks E feed self).2)
  = length feed.
Proof.
  intros Hfeed. revert self.
  induction Hfeed as [| [collected pending] rest [u Hu] _ IH]; intros self;
    [reflexivity |].
  cbn [snd] in Hu. subst pending. cbn [run_background_tasks].
  pose proof (run_cycle_ends_once E collected self) as Hc.
  destruct (run_detection_cycle E collected self) as [self' log].
  specialize (IH self').
  destruct (run_background_tasks E rest self') as [self'' log'].
  cbn [snd length] in *. rewrite List.filter_app, length_app. lia.
Qed.

(** ** Confidence *)

Lemma confidence_range (v : R) : 0 <= v -> 0 < 1 / (1 + v) <= 1.
Proof.
  intros Hv. split.
  - apply Rdiv_lt_0_compat; lra.
  - apply (Rmult_le_reg_r (1 + v)); [lra |].
    unfold Rdiv. rewrite Rmult_assoc, Rinv_l by lra. lra.
Qed.



(** ** Rolling buffers *)

Lemma update_buffer_same (db : gmap string (list R)) (metric_name : string)
    (metric_data : MetricData) (buffer : list R) :
  db !! metric_name = Some buffer ->
  update_buffer db metric_name metric_data !! metric_name
  = Some (tail_slice buffer_size (buffer ++ values metric_data)).
Proof.
  intros Hb. unfold update_buffer. rewrite Hb. case_bool_decide.
  - now rewrite lookup_insert_eq.
  - rewrite lookup_insert_eq. now rewrite tail_slice_all by lia.
Qed.

Lemma update_buffer_absent (db : gmap string (list R)) (metric_name : string)
    (metric_data : MetricData) :
  db !! metric_name = None ->
  update_buffer db metric_name metric_data = db.
Proof. intros Hb. unfold update_buffer. now rewrite Hb. Qed.

Lemma update_buffer_other (db : gmap string (list R))
    (metric_name other : string) (metric_data : MetricData) :
  metric_name <> other ->
  update_buffer db metric_name metric_data !! other = db !! other.
Proof.
  intros Hne. unfold update_buffer.
  destruct (db !! metric_name); [| reflexivity].
  case_bool_decide; now rewrite lookup_insert_ne.
Qed.

Lemma update_fold_absent (metrics_data : list (string * MetricData))
    (db : gmap string (list R)) (metric_name : string) :
  db !! metric_name = None ->
  foldl (fun db '(name, metric_data) => update_buffer db name metric_data)
    db metrics_data !! metric_name = None.
Proof.
  revert db. induction metrics_data as [| [name md] rest IH]; intros db Hb;
    [exact Hb |].
  cbn [foldl]. apply IH.
  destruct (decide (name = metric_name)) as [-> | Hne].
  - now rewrite update_buffer_absent.
  - now rewrite update_buffer_other.
Qed.

(** One batch: the buffer becomes the last [buffer_size] values of the old
    buffer followed by the values of the batch. *)
Lemma update_fold_lookup (metrics_data : list (string * MetricData))
    (db : gmap string (list R)) (metric_name : string) (buffer : list R) :
  db !! metric_name = Some buffer ->
  (length buffer <= buffer_size)%nat ->
  foldl (fun db '(name, metric_data) => update_buffer db name metric_data)
    db metrics_data !! metric_name
  = Some (tail_slice buffer_size (buffer ++ inserted metric_name metrics_data)).
Proof.
  revert db buffer.
  induction metrics_data as [| [name md] rest IH]; intros db buffer Hb Hlen.
  - cbn. rewrite app_nil_r, tail_slice_all by exact Hlen. exact Hb.
  - cbn [foldl inserted flat_map].
    destruct (decide (name = metric_name)) as [-> | Hne].
    + rewrite (IH _ (tail_slice buffer_size (buffer ++ values md))).
      * now rewrite tail_slice_absorb, app_assoc.
      * now apply update_buffer_same.
      * rewrite tail_slice_length. lia.
    + rewrite (IH _ buffer); [reflexivity | | exact Hlen].
      now rewrite update_buffer_other.
Qed.

Lemma update_cycles_lookup (batches : list (list (string * MetricData)))
    (self : Detector) (metric_name : string) (buffer : list R) :
  data_buffer self !! metric_name = Some buffer ->
  (length buffer <= buffer_size)%nat ->
  data_buffer (update_cycles self batches) !! metric_name
  = Some (tail_slice buffer_size
            (buffer ++ concat (map (inserted metric_name) batches))).
Proof.
  unfold update_cycles. revert self buffer.
  induction batches as [| batch rest IH]; intros self buffer Hb Hlen.
  - cbn. rewrite app_nil_r, tail_slice_all by exact Hlen. exact Hb.
  - cbn [foldl map concat].
    rewrite (IH _ (tail_slice buffer_size
                     (buffer ++ inserted metric_name batch))).
    + now rewrite tail_slice_absorb, app_assoc.
    + cbn [_update_models data_buffer]. now apply update_fold_lookup.
    + rewrite tail_slice_length. lia.
Qed.

(** A buffer touched by an update is within capacity afterwards, whatever
    it held before. *)
Lemma update_models_bounded (metrics_data : list (string * MetricData))
    (self : Detector) (metric_name : string) (buffer : list R) :
  In metric_name (map fst metrics_data) ->
  data_buffer (_update_models self metrics_data) !! metric_name = Some buffer ->
  (length buffer <= buffer_size)%nat.
Proof.
  cbn [_update_models data_buffer]. generalize (data_buffer self) as db.
  induction metrics_data as [| [name md] rest IH] using rev_ind;
    intros db Hin; [contradiction |].
  rewrite foldl_app. cbn [foldl].
  set (db' := foldl _ db rest).
  destruct (decide (name = metric_name)) as [-> | Hne].
  - destruct (db' !! metric_name) as [old |] eqn:Hold.
    + rewrite (update_buffer_same _ _ _ old Hold). intros [= <-].
      rewrite tail_slice_length. lia.
    + rewrite update_buffer_absent by exact Hold. now rewrite Hold.
  - rewrite update_buffer_other by exact Hne. apply IH.
    rewrite map_app in Hin. apply in_app_or in Hin.
    destruct Hin as [Hin | [Heq | []]]; [exact Hin | now cbn in Heq].
Qed.

(** C6: with capacity 1000, a buffer touched by an update holds at most
    1000 values afterwards; and a buffer that starts empty holds, after any
    number of updates, the last 1000 of the values inserted so far in their
    order of insertion: once 1000 + k values have been inserted, exactly
    the 1000 values that follow the first k. *)
Theorem C6_rolling_buffer_is_bounded_fifo (self : Detector)
    (batches : list (list (string * MetricData))) (metric_name : string) :
  data_buffer self !! metric_name = Some [] ->
  let all := concat (map (inserted metric_name) batches) in
  buffer_size = 1000%nat
  /\ (forall self' metrics_data buffer,
        In metric_name (map fst metrics_data) ->
        data_buffer (_update_models self' metrics_data) !! metric_name
        = Some buffer ->
        (length buffer <= buffer_size)%nat)
  /\ exists buffer,
       data_buffer (update_cycles self batches) !! metric_name = Some buffer
       /\ (length buffer <= buffer_size)%nat
       /\ buffer = tail_slice buffer_size all
       /\ (forall k, length all = (buffer_size + k)%nat ->
             length buffer = buffer_size /\ buffer = drop k all).
Proof.
  intros Hfresh all. split; [reflexivity |].
  split; [intros self' metrics_data buffer; apply update_models_bounded |].
  exists (tail_slice buffer_size all).
  split; [| split; [| split]].
  - rewrite (update_cycles_lookup batches self metric_name [] Hfresh);
      [reflexivity | simpl; lia].
  - rewrite tail_slice_length. lia.
  - reflexivity.
  - intros k Hk. split.
    + rewrite tail_slice_length. lia.
    + unfold tail_slice. f_equal. lia.
Qed.

Lemma C6_rolling_buffer_witness :
  let self := _load_historical_data init in
  let batches := [ [("cpu"%string, flat_series 50)];
                   [("memory"%string, flat_series 70);
                    ("cpu"%string, flat_series 60)] ] in
  exists buffer,
    data_buffer (update_cycles self batches) !! "cpu"%string = Some buffer
    /\ (length buffer <= buffer_size)%nat
    /\ buffer = tail_slice buffer_size (replicate 10 50 ++ replicate 10 60).
Proof.
  intros self batches.
  assert (Hfresh : data_buffer self !! "cpu"%string = Some []) by reflexivity.
  destruct (C6_rolling_buffer_is_bounded_fifo self batches "cpu" Hfresh)
    as (_ & _ & buffer & Hb & Hlen & Heq & _).
  exists buffer. split; [exact Hb |]. split; [exact Hlen |].
  rewrite Heq. reflexivity.
Defined.

(** Eviction at work: 1000 buffered zeros followed by two new readings. *)
Example buffer_evicts_oldest :
  let self := _load_historical_data init in
  let batches := [ [("cpu"%string, mkMetricData (replicate 1000 0) [])];
                   [("cpu"%string, mkMetricData [1; 2] [])] ] in
  data_buffer (update_cycles self batches) !! "cpu"%string
  = Some (replicate 998 0 ++ [1; 2]).
Proof. reflexivity. Qed.

(** ** Forecast *)

Lemma linear_series_length (a c : R) (n : nat) :
  length (linear_series a c n) = n.
Proof. revert a. induction n as [| n IH]; intros a; simpl; [| rewrite IH]; reflexivity. Qed.

Lemma linear_series_drop (k n : nat) (a c : R) :
  drop k (linear_series a c n) = linear_series (a + INR k * c) c (n - k).
Proof.
  revert n a. induction k as [| k IH]; intros n a.
  - rewrite Nat.sub_0_r. cbn [drop].
    replace (a + INR 0 * c) with a by (simpl; lra). reflexivity.
  - destruct n as [| n]; [reflexivity |].
    cbn [linear_series drop Nat.sub]. rewrite IH, S_INR.
    replace (a + c + INR k * c) with (a + (INR k + 1) * c) by lra.
    reflexivity.
Qed.

Lemma linear_series_tail_slice (k n : nat) (a c : R) :
  (k <= n)%nat ->
  tail_slice k (linear_series a c n) = linear_series (a + INR (n - k) * c) c k.
Proof.
  intros Hk. unfold tail_slice.
  rewrite linear_series_length, linear_series_drop.
  replace (n - (n - k))%nat with k by lia. reflexivity.
Qed.

Lemma linear_series_diff (n : nat) (a c : R) :
  np_diff (linear_series a c (S n)) = replicate n c.
Proof.
  unfold np_diff. cbn [linear_series drop]. revert a.
  induction n as [| n IH]; intros a; [reflexivity |].
  cbn [linear_series zip_with replicate]. f_equal; [lra |]. apply IH.
Qed.

Lemma linear_series_last (n : nat) (a c d : R) :
  List.last (linear_series a c (S n)) d = a + INR n * c.
Proof.
  revert a. induction n as [| n IH]; intros a.
  - simpl. lra.
  - change (List.last (linear_series a c (S (S n))) d)
      with (List.last (linear_series (a + c) c (S n)) d).
    rewrite IH, S_INR. lra.
Qed.

Lemma flat_map_singleton {A B : Type} (f : A -> B) (l : list A) :
  flat_map (fun x => [f x]) l = map f l.
Proof. induction l as [| x l IH]; simpl; [| rewrite IH]; reflexivity. Qed.

(** With at least ten recent values every horizon step yields a
    prediction. *)
Lemma predict_step_eq (recent_data : list R) (now : datetime) (h : Z) :
  (10 <= length recent_data)%nat ->
  predict_step recent_data now h
  = [ let predicted_value :=
        List.last recent_data 0
        + np_mean (np_diff (tail_slice 10 recent_data)) * IZR h in
      let std_dev := np_std (tail_slice 20 recent_data) in
      mkModelPrediction [predicted_value]
        [[predicted_value - 2 * std_dev; predicted_value + 2 * std_dev]]
        [_calculate_prediction_anomaly_score predicted_value recent_data]
        "linear_trend" (now + 3600 * h)%Z ].
Proof.
  intros Hlen. unfold predict_step. now rewrite bool_decide_eq_true_2.
Qed.

Lemma predict_enough_history (self : Detector) (now : datetime)
    (metric_name : string) (horizon : Z) (buffer : list R) :
  data_buffer self !! metric_name = Some buffer ->
  (50 <= length buffer)%nat ->
  predict_future_anomalies self now metric_name horizon
  = map (fun h =>
           let recent_data := tail_slice 100 buffer in
           let predicted_value :=
             List.last recent_data 0
             + np_mean (np_diff (tail_slice 10 recent_data)) * IZR h in
           let std_dev := np_std (tail_slice 20 recent_data) in
           mkModelPrediction [predicted_value]
             [[predicted_value - 2 * std_dev; predicted_value + 2 * std_dev]]
             [_calculate_prediction_anomaly_score predicted_value recent_data]
             "linear_trend" (now + 3600 * h)%Z)
      (seqZ 1 horizon).
Proof.
  intros Hb Hlen. unfold predict_future_anomalies. rewrite Hb.
  rewrite bool_decide_eq_false_2 by lia.
  rewrite <- flat_map_singleton. apply flat_map_ext. intros h.
  apply predict_step_eq. rewrite tail_slice_length. lia.
Qed.

(** The trend of a linear series is its first difference. *)
Lemma linear_series_trend (a c : R) (n : nat) :
  (10 <= n)%nat ->
  np_mean (np_diff (tail_slice 10 (linear_series a c n))) = c.
Proof.
  intros Hn. rewrite linear_series_tail_slice by exact Hn.
  rewrite linear_series_diff. apply np_mean_replicate. lia.
Qed.

(** C7: with no buffer or fewer than 50 buffered values the forecast is the
    empty list; with a buffer of 100 values of constant first difference
    [c], the predicted value at horizon step [h], for [h] from 1 to the
    horizon, is the last buffered value plus [c * h]. *)
Theorem C7_forecast_short_history_and_linear_trend (self : Detector)
    (now : datetime) (metric_name : string) (horizon : Z) :
  (data_buffer self !! metric_name = None ->
   predict_future_anomalies self now metric_name horizon = [])
  /\ (forall buffer,
        data_buffer self !! metric_name = Some buffer ->
        (length buffer < 50)%nat ->
        predict_future_anomalies self now metric_name horizon = [])
  /\ (forall a c,
        data_buffer self !! metric_name = Some (linear_series a c 100) ->
        List.last (linear_series a c 100) 0 = a + 99 * c
        /\ map predicted_values
             (predict_future_anomalies self now metric_name horizon)
           = map (fun h => [List.last (linear_series a c 100) 0 + c * IZR h])
               (seqZ 1 horizon)).
Proof.
  split; [| split].
  - intros Hb. unfold predict_future_anomalies. now rewrite Hb.
  - intros buffer Hb Hlen. unfold predict_future_anomalies. rewrite Hb.
    now rewrite bool_decide_eq_true_2.
  - intros a c Hb. split.
    + rewrite linear_series_last.
      replace (INR 99) with 99; [reflexivity |].
      rewrite INR_IZR_INZ. reflexivity.
    + rewrite (predict_enough_history self now metric_name horizon _ Hb)
        by (rewrite linear_series_length; lia).
      rewrite map_map. apply map_ext. intros h. cbn [predicted_values].
      rewrite tail_slice_all by (rewrite linear_series_length; lia).
      rewrite linear_series_trend by lia. reflexivity.
Qed.

Lemma C7_forecast_witness :
  let self := mkDetector {[ "cpu"%string := linear_series 20 0.5 100 ]} in
  map predicted_values (predict_future_anomalies self 0%Z "cpu" 3)
  = [ [List.last (linear_series 20 0.5 100) 0 + 0.5 * 1];
      [List.last (linear_series 20 0.5 100) 0 + 0.5 * 2];
      [List.last (linear_series 20 0.5 100) 0 + 0.5 * 3] ].
Proof.
  intros self.
  apply (proj2 (proj2 (proj2 (C7_forecast_short_history_and_linear_trend
                                self 0%Z "cpu" 3)) 20 0.5 eq_refl)).
Defined.

Lemma prediction_score_eq (predicted_value : R) (historical_data : list R) :
  _calculate_prediction_anomaly_score predicted_value historical_data
  = tanh (Rabs (predicted_value - np_mean historical_data)
          / (np_std historical_data + 1e-8) / 3).
Proof. unfold _calculate_prediction_anomaly_score. f_equal. lra. Qed.

Lemma replicate_diff (x : R) (n : nat) :
  np_diff (replicate (S n) x) = replicate n (x - x).
Proof.
  unfold np_diff. cbn [replicate drop].
  induction n as [| n IH]; [reflexivity |].
  cbn [replicate zip_with]. f_equal. exact IH.
Qed.

Lemma replicate_last (x d : R) (n : nat) :
  List.last (replicate (S n) x) d = x.
Proof.
  induction n as [| n IH]; [reflexivity |].
  change (List.last (replicate (S (S n)) x) d)
    with (List.last (replicate (S n) x) d). exact IH.
Qed.

Lemma replicate_tail_slice {A : Type} (k n : nat) (x : A) :
  (k <= n)%nat -> tail_slice k (replicate n x) = replicate k x.
Proof.
  intros Hk. unfold tail_slice. rewrite length_replicate, drop_replicate.
  f_equal. lia.
Qed.

(** C8, as stated, fails once the buffer holds more than 100 values: with
    the 101 buffered values 1, 0, ..., 0 the prediction at the first step is
    0 and its score, taken against the last 100 values, is 0, whereas the
    score taken against the mean and deviation of the whole buffer is
    positive. *)
Lemma C8_counterexample_score_uses_last_100_values :
  let buffer := 1 :: replicate 100 0 in
  let self := mkDetector {[ "cpu"%string := buffer ]} in
  map predicted_values (predict_future_anomalies self 0%Z "cpu" 1) = [[0]]
  /\ map anomaly_scores (predict_future_anomalies self 0%Z "cpu" 1) = [[0]]
  /\ 0 < tanh (Rabs (0 - np_mean buffer) / (np_std buffer + 1e-8) / 3).
Proof.
  intros buffer self.
  assert (Hpred : predict_future_anomalies self 0%Z "cpu" 1
    = [ mkModelPrediction [0] [[0 - 2 * 0; 0 + 2 * 0]] [0] "linear_trend"
          3600%Z ]).
  { rewrite (predict_enough_history self 0%Z "cpu" 1 buffer eq_refl)
      by (subst buffer; cbn [length]; rewrite length_replicate; lia).
    cbn [seqZ map]. change (seqZ 1 1) with [1%Z]. cbn [map].
    change buffer with ([1] ++ replicate 100 0).
    rewrite (tail_slice_app 100 [1] (replicate 100 0))
      by apply length_replicate.
    rewrite !replicate_tail_slice by lia.
    rewrite (replicate_diff 0 9), (replicate_last 0 0 99).
    rewrite np_mean_replicate by lia. rewrite np_std_replicate.
    rewrite prediction_score_eq.
    rewrite (np_mean_replicate 0 100) by lia. rewrite np_std_replicate.
    replace (0 + (0 - 0) * 1) with 0 by lra.
    replace (Rabs (0 - 0) / (0 + 1e-8) / 3) with 0.
    - rewrite tanh_0. reflexivity.
    - replace (0 - 0) with 0 by lra. rewrite Rabs_R0. lra. }
  rewrite Hpred. split; [reflexivity |]. split; [reflexivity |].
  apply tanh_pos.
  assert (Hmean : 0 < np_mean buffer).
  { unfold np_mean. apply Rdiv_lt_0_compat.
    - subst buffer. cbn [np_sum foldr]. fold (np_sum (replicate 100 0)).
      rewrite np_sum_replicate. lra.
    - apply lt_0_INR. subst buffer. cbn [length]. lia. }
  pose proof (std_eps_pos buffer) as Hd.
  apply Rdiv_lt_0_compat; [| lra].
  apply Rdiv_lt_0_compat; [| exact Hd].
  apply Rabs_pos_lt. lra.
Qed.

(** C8, amended: with at least 50 buffered values, the score attached to
    each horizon step is [tanh(|predicted - mean| / (std + 1e-8) / 3)] with
    the mean and the standard deviation taken over the last 100 buffered
    values, which are the whole buffer when it holds at most 100. *)
Theorem C8_prediction_score_over_recent_window (self : Detector)
    (now : datetime) (metric_name : string) (horizon : Z) (buffer : list R) :
  data_buffer self !! metric_name = Some buffer ->
  (50 <= length buffer)%nat ->
  let recent_data := tail_slice 100 buffer in
  let predictions := predict_future_anomalies self now metric_name horizon in
  length predictions = Z.to_nat horizon
  /\ Forall (fun p => exists predicted_value,
               predicted_values p = [predicted_value]
               /\ anomaly_scores p
                  = [tanh (Rabs (predicted_value - np_mean recent_data)
                           / (np_std recent_data + 1e-8) / 3)])
       predictions
  /\ ((length buffer <= 100)%nat -> recent_data = buffer).
Proof.
  intros Hb Hlen recent_data predictions. subst predictions.
  rewrite (predict_enough_history self now metric_name horizon buffer Hb Hlen).
  fold recent_data. split; [| split].
  - now rewrite length_map, length_seqZ.
  - generalize (seqZ 1 horizon). intros hs.
    induction hs as [| h hs IH]; cbn [map]; [constructor |].
    constructor; [| exact IH].
    eexists. cbn [predicted_values anomaly_scores]. split; [reflexivity |].
    now rewrite prediction_score_eq.
  - intros Hle. now apply tail_slice_all.
Qed.

Lemma C8_prediction_score_witness :
  let buffer := linear_series 20 0.5 60 in
  let self := mkDetector {[ "cpu"%string := buffer ]} in
  length (predict_future_anomalies self 0%Z "cpu" 24) = 24%nat.
Proof.
  intros buffer self.
  assert (Hlen : (50 <= length buffer)%nat)
    by (subst buffer; rewrite linear_series_length; lia).
  apply (proj1 (C8_prediction_score_over_recent_window
                  self 0%Z "cpu" 24 buffer eq_refl Hlen)).
Defined.

(** ** Failures inside a detection cycle *)

Lemma scoring_exception_logged (E : Collaborators) (metric_name : string)
    (metric_data : MetricData) (entry : LogEntry) :
  scoring_exception E metric_name metric_data entry ->
  In entry (detect_anomalies E metric_name metric_data).2.
Proof.
  intros [e Hlen Hpre | data e Hlen Hpre Hscorer | data e Hlen Hpre Hloop].
  - rewrite (detect_anomalies_preprocess_raises _ _ _ e Hlen Hpre).
    now left.
  - assert (Hrun : exists votes,
              _run_ensemble_detection E metric_name data
                (timestamps metric_data) = (votes, ensemble_failed e)).
    { destruct Hscorer as [Hiso | [(iso & Hiso & Hae)
                                  | (iso & ae & Hiso & Hae & Hvae)]].
      - eexists. now apply run_ensemble_first_raises.
      - eexists. now apply (run_ensemble_second_raises _ _ _ _ iso).
      - eexists. now apply (run_ensemble_third_raises _ _ _ _ iso ae). }
    destruct Hrun as [votes Hrun].
    rewrite (detect_anomalies_loop _ _ _ _ _ _ Hlen Hpre Hrun).
    destruct (detect_loop _ _ _ _ _); cbn [snd]; [now left |].
    apply in_or_app. left. now left.
  - destruct (_run_ensemble_detection E metric_name data
                (timestamps metric_data)) as [results log] eqn:Hrun.
    cbn [fst] in Hloop.
    rewrite (detect_anomalies_loop _ _ _ _ _ _ Hlen Hpre Hrun), Hloop.
    cbn [snd]. apply in_or_app. right. now left.
Qed.

(** A cycle whose collection succeeds never takes the handler of
    [run_detection_cycle]: the one entry that ends it is the closing
    message. *)
Lemma run_cycle_completes (E : Collaborators)
    (current_metrics : list (string * MetricData)) (self : Detector) :
  List.filter cycle_end (run_detection_cycle E (Ok current_metrics) self).2
  = [LogInfo "Anomaly detection cycle completed"].
Proof.
  unfold run_detection_cycle.
  pose proof (detect_all_log_no_cycle_end E current_metrics) as Hd.
  destruct (detect_all E current_metrics) as [anomalies log]. cbn [snd] in *.
  rewrite !List.filter_app, Hd.
  destruct anomalies; [reflexivity |].
  now rewrite process_anomalies_no_cycle_end.
Qed.

(** C9, amended: a collection error is caught and logged and the cycle is
    abandoned with the detector, hence every buffer, unchanged.  A scoring
    exception, whether raised by the preprocessor, by a scorer or by the
    combination loop, is caught and logged inside [detect_anomalies]; the
    cycle is not abandoned but runs to its closing message, and every
    buffer is advanced by the values collected in the cycle.  Whatever
    failed inside the cycles, the background loop runs one cycle to its end
    in every iteration. *)
Theorem C9_cycle_failures (E : Collaborators) (self : Detector) :
  (forall e,
     run_detection_cycle E (Raise e) self
     = (self, [LogError "Anomaly detection cycle failed" e]))
  /\ (forall current_metrics metric_name metric_data entry,
        In (metric_name, metric_data) current_metrics ->
        scoring_exception E metric_name metric_data entry ->
        let cycle := run_detection_cycle E (Ok current_metrics) self in
        In entry cycle.2
        /\ List.filter cycle_end cycle.2
           = [LogInfo "Anomaly detection cycle completed"]
        /\ cycle.1 = _update_models self current_metrics
        /\ (forall m buffer,
              data_buffer self !! m = Some buffer ->
              (length buffer <= buffer_size)%nat ->
              data_buffer cycle.1 !! m
              = Some (tail_slice buffer_size
                        (buffer ++ inserted m current_metrics))))
  /\ (forall feed,
        Forall (fun answers => exists u, answers.2 = Ok u) feed ->
        length (List.filter cycle_end (run_background_tasks E feed self).2)
        = length feed).
Proof.
  split; [reflexivity |].
  split; [| intros feed; apply background_loop_runs_every_cycle].
  intros current_metrics metric_name metric_data entry Hin Hexc cycle.
  subst cycle. split; [| split; [| split]].
  - apply run_cycle_log.
    apply (detect_all_log E _ metric_name metric_data _ Hin).
    now apply scoring_exception_logged.
  - apply run_cycle_completes.
  - apply run_cycle_buffers.
  - intros m buffer Hb Hlen. rewrite run_cycle_buffers.
    cbn [_update_models data_buffer]. now apply update_fold_lookup.
Qed.

Lemma C9_cycle_failures_witness :
  let E := example_collaborators identity_preprocessor
             (constant_scorer 0) (constant_scorer 2)
             (failing_scorer "vae failed") in
  let before := _load_historical_data init in
  let batch := [("cpu"%string, flat_series 50)] in
  let cycle := run_detection_cycle E (Ok batch) before in
  In (LogError "Ensemble detection failed" "vae failed") cycle.2
  /\ List.filter cycle_end cycle.2
     = [LogInfo "Anomaly detection cycle completed"]
  /\ cycle.1 = _update_models before batch
  /\ (forall m buffer,
        data_buffer before !! m = Some buffer ->
        (length buffer <= buffer_size)%nat ->
        data_buffer cycle.1 !! m
        = Some (tail_slice buffer_size (buffer ++ inserted m batch))).
Proof.
  intros E before batch.
  apply (proj1 (proj2 (C9_cycle_failures E before))
           batch "cpu"%string (flat_series 50)
           (LogError "Ensemble detection failed" "vae failed")).
  - now left.
  - apply (scorer_raises E "cpu" (flat_series 50) (replicate 10 50)
             "vae failed").
    + simpl. lia.
    + reflexivity.
    + right. right. exists (replicate 10 0), (replicate 10 2).
      repeat split; reflexivity.
Defined.

(** * Further properties of the detector *)

(** ** Severity tiers and the threshold table *)

(** X1: under the thresholds of any metric, severity never decreases when
    the score increases. *)
Theorem determine_severity_monotone (metric_name : string) (s1 s2 : R) :
  s1 <= s2 ->
  (severity_rank (_determine_severity metric_name s1)
   <= severity_rank (_determine_severity metric_name s2))%nat.
Proof.
  intros Hs. unfold _determine_severity.
  generalize (default (mkThreshold 0.7 0.9) (thresholds !! metric_name)).
  intros t. repeat case_bool_decide; cbn [severity_rank];
    first [lia | exfalso; lra].
Qed.

Lemma determine_severity_monotone_witness :
  (severity_rank (_determine_severity "cpu" 0.5)
   <= severity_rank (_determine_severity "cpu" 0.95))%nat.
Proof.
  apply determine_severity_monotone. lra.
Defined.

Lemma thresholds_entries (metric_name : string) (t : Threshold) :
  thresholds !! metric_name = Some t ->
  In t [ mkThreshold 0.7 0.9; mkThreshold 0.75 0.9; mkThreshold 0.8 0.95;
         mkThreshold 0.6 0.8; mkThreshold 0.65 0.85 ].
Proof.
  intros H. apply elem_of_list_to_map_2 in H.
  repeat (apply elem_of_cons in H; destruct H as [[= _ <-] | H]);
    [cbn; tauto .. |].
  now apply elem_of_nil in H.
Qed.

Lemma thresholds_ordered (metric_name : string) :
  let t := default (mkThreshold 0.7 0.9) (thresholds !! metric_name) in
  0 < warning t /\ warning t < critical t /\ critical t < 1.
Proof.
  destruct (thresholds !! metric_name) as [t |] eqn:Ht; cbn.
  - apply thresholds_entries in Ht. cbn in Ht.
    repeat (destruct Ht as [<- | Ht]; [cbn; lra |]). contradiction.
  - lra.
Qed.

(** X2: for every metric name, known or not, the warning threshold lies
    strictly between 0 and the critical threshold, which is below 1; hence
    every score classified critical passes the flagging test of
    [detect_anomalies]. *)
Theorem threshold_table_ordered (metric_name : string) :
  let t := default (mkThreshold 0.7 0.9) (thresholds !! metric_name) in
  warning_level metric_name = warning t
  /\ 0 < warning t /\ warning t < critical t /\ critical t < 1
  /\ (forall s, _determine_severity metric_name s = Critical ->
        warning_level metric_name < s).
Proof.
  intros t. pose proof (thresholds_ordered metric_name) as (H0 & Hwc & H1).
  fold t in H0, Hwc, H1.
  split; [apply warning_level_eq |]. repeat (split; [assumption |]).
  intros s. rewrite warning_level_eq. fold t. unfold _determine_severity.
  fold t. repeat case_bool_decide; intros; try discriminate. lra.
Qed.

(** ** Recommendations *)

Lemma recommendations_by_severity (metric_name : string) (value : R)
    (sev : Severity) :
  _generate_recommendations metric_name value sev
  = if decide (sev = Critical)
    then urgent_marker :: _generate_recommendations metric_name value Info
    else _generate_recommendations metric_name value Info.
Proof.
  unfold _generate_recommendations.
  destruct (decide (sev = Critical)); reflexivity.
Qed.

Lemma base_recommendations_shape (metric_name : string) (value : R) :
  let base := _generate_recommendations metric_name value Info in
  ~ In urgent_marker base /\ (length base = 4 \/ length base = 1)%nat.
Proof.
  unfold _generate_recommendations. cbn [decide].
  match goal with
  | |- context [default ?d (?m !! metric_name)] =>
      destruct (m !! metric_name) as [l |] eqn:Hl
  end.
  - apply elem_of_list_to_map_2 in Hl.
    repeat (apply elem_of_cons in Hl; destruct Hl as [[= _ ->] | Hl]);
      [cbn; split; [| now left];
       intros Hin; repeat (destruct Hin as [Hin | Hin]; [discriminate Hin |]);
       exact Hin .. |].
    now apply elem_of_nil in Hl.
  - cbn. split; [| now right].
    intros [Hin | []]. discriminate Hin.
Qed.

Lemma base_recommendations_known (metric_name : string) (value : R) :
  In metric_name buffered_metrics ->
  length (_generate_recommendations metric_name value Info) = 4%nat.
Proof.
  cbn. intros [<- | [<- | [<- | [<- | [<- | []]]]]]; reflexivity.
Qed.

Lemma base_recommendations_unknown (metric_name : string) (value : R) :
  ~ In metric_name buffered_metrics ->
  _generate_recommendations metric_name value Info
  = ["Investigate the anomaly"%string].
Proof.
  intros Hin. unfold _generate_recommendations. cbn [decide].
  match goal with
  | |- context [default ?d (?m !! metric_name)] =>
      destruct (m !! metric_name) as [l |] eqn:Hl
  end; [| reflexivity].
  exfalso. apply Hin. apply elem_of_list_to_map_2 in Hl.
  repeat (apply elem_of_cons in Hl; destruct Hl as [[= -> _] | Hl];
          [cbn; tauto |]).
  now apply elem_of_nil in Hl.
Qed.

(** X6: the recommendations of a critical anomaly are the urgent marker
    followed by the list given for any other severity; that list depends on
    the metric alone, never holds the marker, and has four entries for each
    of the five known metrics and the single entry "Investigate the
    anomaly" for any other metric.  So the list is never empty and it
    starts with the marker exactly when the severity is critical. *)
Theorem generate_recommendations_shape (metric_name : string) (value : R)
    (sev : Severity) :
  let recs := _generate_recommendations metric_name value sev in
  let base := _generate_recommendations metric_name 0 Info in
  recs = (if decide (sev = Critical) then [urgent_marker] else []) ++ base
  /\ ~ In urgent_marker base
  /\ (length base = 4 \/ length base = 1)%nat
  /\ (head recs = Some urgent_marker <-> sev = Critical)
  /\ (In metric_name
         ["cpu"; "memory"; "disk"; "network"; "response_time"]%string ->
       length base = 4%nat)
  /\ (~ In metric_name
           ["cpu"; "memory"; "disk"; "network"; "response_time"]%string ->
       base = ["Investigate the anomaly"%string]).
Proof.
  intros recs base.
  pose proof (base_recommendations_shape metric_name 0) as [Hno Hlen].
  fold base in Hno, Hlen.
  assert (Hrecs : recs
    = (if decide (sev = Critical) then [urgent_marker] else []) ++ base).
  { subst recs. rewrite recommendations_by_severity.
    destruct (decide (sev = Critical)); reflexivity. }
  split; [exact Hrecs |]. split; [exact Hno |]. split; [exact Hlen |].
  split; [| split].
  - rewrite Hrecs. destruct (decide (sev = Critical)) as [Hc | Hc]; cbn.
    + tauto.
    + split; [| contradiction]. intros Hhd. exfalso. apply Hno.
      destruct base as [| r base']; [discriminate |].
      injection Hhd as ->. now left.
  - apply base_recommendations_known.
  - apply base_recommendations_unknown.
Qed.

(** ** Alerts and incidents *)

Lemma process_anomalies_alerts (anomalies : list AnomalyResult) :
  length (List.filter is_alert (_process_anomalies anomalies))
  = length anomalies.
Proof.
  unfold _process_anomalies.
  induction anomalies as [| a rest IH]; [reflexivity |].
  cbn [flat_map]. rewrite !List.filter_app, !length_app, IH.
  destruct (decide (severity a = Critical)); reflexivity.
Qed.

Lemma process_anomalies_incidents (anomalies : list AnomalyResult) :
  length (List.filter is_incident (_process_anomalies anomalies))
  = length (List.filter is_critical anomalies).
Proof.
  unfold _process_anomalies.
  induction anomalies as [| a rest IH]; [reflexivity |].
  cbn [flat_map List.filter]. rewrite !List.filter_app, !length_app, IH.
  unfold is_critical at 2. unfold bool_decide.
  destruct (decide_rel eq (severity a) Critical); reflexivity.
Qed.

(** X7: processing a list of anomalies sends exactly one alert per anomaly
    and opens exactly one incident per critical anomaly, none for the
    others. *)
Theorem process_anomalies_one_alert_each (anomalies : list AnomalyResult) :
  length (List.filter is_alert (_process_anomalies anomalies))
  = length anomalies
  /\ length (List.filter is_incident (_process_anomalies anomalies))
     = length (List.filter is_critical anomalies).
Proof.
  split; [apply process_anomalies_alerts | apply process_anomalies_incidents].
Qed.

Lemma run_ensemble_log_errors_only (E : Collaborators) (metric_name : string)
    (data : list R) (ts : list datetime) (f : LogEntry -> bool) :
  (forall event msg, f (LogError event msg) = false) ->
  List.filter f (_run_ensemble_detection E metric_name data ts).2 = [].
Proof.
  intros Hf. unfold _run_ensemble_detection, ensemble_failed.
  destruct (isolation_forest_decision_function E data);
    [| cbn; now rewrite Hf].
  destruct (autoencoder_decision_function E data); [| cbn; now rewrite Hf].
  destruct (vae_decision_function E data); [reflexivity | cbn; now rewrite Hf].
Qed.

Lemma detect_anomalies_log_errors_only (E : Collaborators)
    (metric_name : string) (metric_data : MetricData) (f : LogEntry -> bool) :
  (forall event msg, f (LogError event msg) = false) ->
  List.filter f (detect_anomalies E metric_name metric_data).2 = [].
Proof.
  intros Hf. unfold detect_anomalies, detection_failed.
  case_bool_decide; [reflexivity |].
  destruct (preprocess_time_series E (values metric_data)) as [data |];
    [| cbn; now rewrite Hf].
  pose proof (run_ensemble_log_errors_only E metric_name data
                (timestamps metric_data) f Hf) as Hlog.
  destruct (_run_ensemble_detection E metric_name data (timestamps metric_data))
    as [results log]. cbn [snd] in Hlog.
  destruct (detect_loop _ _ _ _ _); cbn [snd]; [exact Hlog |].
  rewrite List.filter_app, Hlog. cbn. now rewrite Hf.
Qed.

Lemma detect_all_log_errors_only (E : Collaborators)
    (current_metrics : list (string * MetricData)) (f : LogEntry -> bool) :
  (forall event msg, f (LogError event msg) = false) ->
  List.filter f (detect_all E current_metrics).2 = [].
Proof.
  intros Hf. induction current_metrics as [| [name md] rest IH];
    [reflexivity |].
  simpl. pose proof (detect_anomalies_log_errors_only E name md f Hf) as Hd.
  destruct (detect_anomalies E name md) as [found log].
  destruct (detect_all E rest) as [anomalies log']. cbn [snd] in *.
  now rewrite List.filter_app, Hd, IH.
Qed.

(** The anomalies of a cycle are those of its metrics, in the order of the
    collected batch. *)
Lemma detect_all_results (E : Collaborators)
    (current_metrics : list (string * MetricData)) :
  (detect_all E current_metrics).1
  = flat_map (fun '(name, md) => (detect_anomalies E name md).1)
      current_metrics.
Proof.
  induction current_metrics as [| [name md] rest IH]; [reflexivity |].
  simpl. destruct (detect_anomalies E name md) as [found log].
  destruct (detect_all E rest) as [anomalies log']. cbn [fst] in *.
  now rewrite IH.
Qed.

(** X8: a cycle whose collection succeeds sends exactly one alert for every
    anomaly detected on any of its metrics and opens one incident for every
    critical one; a cycle whose collection fails sends no alert and opens
    no incident. *)
Theorem run_detection_cycle_alerts (E : Collaborators)
    (current_metrics : list (string * MetricData)) (self : Detector) :
  let cycle := run_detection_cycle E (Ok current_metrics) self in
  let found :=
    flat_map (fun '(name, md) => (detect_anomalies E name md).1)
      current_metrics in
  length (List.filter is_alert cycle.2) = length found
  /\ length (List.filter is_incident cycle.2)
     = length (List.filter is_critical found)
  /\ (forall e,
        List.filter is_alert (run_detection_cycle E (Raise e) self).2 = []
        /\ List.filter is_incident (run_detection_cycle E (Raise e) self).2
           = []).
Proof.
  intros cycle found. subst cycle found.
  rewrite <- detect_all_results. unfold run_detection_cycle.
  pose proof (detect_all_log_errors_only E current_metrics is_alert
                (fun _ _ => eq_refl)) as Ha.
  pose proof (detect_all_log_errors_only E current_metrics is_incident
                (fun _ _ => eq_refl)) as Hi.
  destruct (detect_all E current_metrics) as [anomalies log].
  cbn [fst snd] in *. rewrite !List.filter_app, Ha, Hi.
  split; [| split; [| intros e; split; reflexivity]].
  - destruct anomalies as [| a rest]; [reflexivity |].
    cbn [app]. rewrite length_app, process_anomalies_alerts. cbn. lia.
  - destruct anomalies as [| a rest]; [reflexivity |].
    cbn [app]. rewrite length_app, process_anomalies_incidents. cbn. lia.
Qed.

(** ** What [detect_anomalies] returns *)

Lemma calculate_confidence_range (results : list EnsembleVote) (i : nat)
    (c : R) :
  _calculate_confidence results i = Ok c -> 0 < c <= 1.
Proof.
  unfold _calculate_confidence.
  destruct (scores_at results i) as [ss |]; cbn; [| discriminate].
  intros [= <-].
  pose proof (confidence_range (np_var ss) (np_var_nonneg ss)) as Hr.
  replace (1.0 / (1.0 + np_var ss)) with (1 / (1 + np_var ss))
    by (f_equal; lra).
  replace 1.0 with 1 by lra. rewrite Rmin_left by lra. exact Hr.
Qed.

(** Inversion: the fields a flagged point carries from the series. *)
Lemma detect_point_fields (E : Collaborators) (metric_name : string)
    (results : list EnsembleVote) (i : nat) (value : R) (t : datetime)
    (a : AnomalyResult) :
  detect_point E metric_name results i value t = Ok (Some a) ->
  ar_metric_name a = metric_name /\ ar_value a = value /\ ar_timestamp a = t
  /\ description a
     = _generate_description E metric_name value (anomaly_score a)
  /\ recommendations a
     = _generate_recommendations metric_name value (severity a).
Proof.
  unfold detect_point.
  destruct (combined_anomaly_score results i) as [[s |] |]; cbn;
    try discriminate.
  case_bool_decide; [| discriminate].
  destruct (_calculate_confidence results i) as [c |]; cbn; [| discriminate].
  intros [= <-]. cbn. repeat split.
Qed.

(** X3: every result returned by [detect_anomalies] carries the metric name
    of the call, is flagged, has a score strictly above the warning level,
    a severity of warning or critical that is the tier of its score, a
    confidence in (0, 1], and recommendations that start with the urgent
    marker exactly when its score reaches the critical threshold. *)
Theorem detect_anomalies_results_wellformed (E : Collaborators)
    (metric_name : string) (metric_data : MetricData) :
  Forall
    (fun a =>
       ar_metric_name a = metric_name
       /\ is_anomaly a = true
       /\ warning_level metric_name < anomaly_score a
       /\ severity a = _determine_severity metric_name (anomaly_score a)
       /\ (severity a = Warning \/ severity a = Critical)
       /\ 0 < confidence a <= 1
       /\ (head (recommendations a) = Some urgent_marker
           <-> critical (default (mkThreshold 0.7 0.9)
                           (thresholds !! metric_name)) <= anomaly_score a))
    (detect_anomalies E metric_name metric_data).1.
Proof.
  unfold detect_anomalies. case_bool_decide; [constructor |].
  destruct (preprocess_time_series E (values metric_data)) as [data |];
    [| constructor].
  destruct (_run_ensemble_detection E metric_name data (timestamps metric_data))
    as [results log].
  destruct (detect_loop E metric_name results 0
              (zip (values metric_data) (timestamps metric_data)))
    as [anomalies |] eqn:Hloop; [| constructor].
  cbn [fst]. apply detect_loop_flagged in Hloop.
  eapply Forall_impl; [exact Hloop |].
  intros a (j & value & t & Ha).
  pose proof (detect_point_fields _ _ _ _ _ _ _ Ha)
    as (Hname & _ & _ & _ & Hrecs).
  apply detect_point_flagged in Ha.
  destruct Ha as (_ & Hs & Hflag & Hsev & Hconf).
  pose proof (determine_severity_tiers metric_name (anomaly_score a))
    as (Hcrit & Hwarn & Hinfo).
  cbn zeta in Hcrit, Hwarn, Hinfo. rewrite <- Hsev in Hcrit, Hwarn, Hinfo.
  repeat split; try assumption.
  - destruct (severity a) eqn:Hsa; [| now left | now right].
    exfalso. rewrite warning_level_eq in Hs.
    destruct Hinfo as [Hinfo _]. specialize (Hinfo eq_refl). lra.
  - now apply calculate_confidence_range in Hconf.
  - now apply calculate_confidence_range in Hconf.
  - rewrite Hrecs, recommendations_by_severity.
    destruct (decide (severity a = Critical)) as [Hc | Hc].
    + intros _. now apply Hcrit.
    + intros Hhd. exfalso.
      pose proof (base_recommendations_shape metric_name value)
        as [Hno _]. apply Hno.
      set (base := _generate_recommendations metric_name value Info) in *.
      destruct base as [| r base]; [discriminate Hhd |].
      injection Hhd as ->. now left.
  - intros Hge. rewrite Hrecs, recommendations_by_severity.
    rewrite decide_True by now apply Hcrit. reflexivity.
Qed.

(** The reported points are points of the series, in its order. *)
Lemma detect_loop_sublist (E : Collaborators) (metric_name : string)
    (results : list EnsembleVote) (points : list (R * datetime)) (i : nat)
    (anomalies : list AnomalyResult) :
  detect_loop E metric_name results i points = Ok anomalies ->
  sublist (map (fun a => (ar_value a, ar_timestamp a)) anomalies) points.
Proof.
  revert i anomalies. induction points as [| [value t] rest IH];
    intros i anomalies; simpl.
  - intros [= <-]. constructor.
  - destruct (detect_point E metric_name results i value t) as [r |] eqn:Hr;
      cbn; [| discriminate].
    destruct (detect_loop E metric_name results (S i) rest) as [tl |] eqn:Htl;
      cbn; [| discriminate].
    intros [= <-]. specialize (IH (S i) tl Htl).
    destruct r as [a |]; cbn.
    + apply detect_point_fields in Hr. destruct Hr as (_ & -> & -> & _).
      now apply sublist_skip.
    + now apply sublist_cons.
Qed.

(** X4: the results of [detect_anomalies] are readings of the series paired
    with their own timestamps, in the order of the series; there are at
    most as many as the shorter of the two sequences, so a series without
    timestamps yields no result. *)
Theorem detect_anomalies_reports_series_points (E : Collaborators)
    (metric_name : string) (metric_data : MetricData) :
  let found := (detect_anomalies E metric_name metric_data).1 in
  sublist (map (fun a => (ar_value a, ar_timestamp a)) found)
    (zip (values metric_data) (timestamps metric_data))
  /\ (length found
      <= Nat.min (length (values metric_data))
           (length (timestamps metric_data)))%nat
  /\ (timestamps metric_data = [] -> found = []).
Proof.
  intros found.
  assert (Hsub : sublist (map (fun a => (ar_value a, ar_timestamp a)) found)
                   (zip (values metric_data) (timestamps metric_data))).
  { subst found. unfold detect_anomalies.
    case_bool_decide; [apply sublist_nil_l |].
    destruct (preprocess_time_series E (values metric_data)) as [data |];
      [| apply sublist_nil_l].
    destruct (_run_ensemble_detection E metric_name data
                (timestamps metric_data)) as [results log].
    destruct (detect_loop E metric_name results 0
                (zip (values metric_data) (timestamps metric_data)))
      as [anomalies |] eqn:Hloop; [| apply sublist_nil_l].
    cbn [fst]. exact (detect_loop_sublist _ _ _ _ _ _ Hloop). }
  pose proof (sublist_length _ _ Hsub) as Hlen.
  rewrite length_map, length_zip in Hlen.
  split; [exact Hsub |]. split; [exact Hlen |].
  intros Hts. rewrite Hts in Hlen. destruct found; [reflexivity |].
  cbn in Hlen. lia.
Qed.

(** ** Votes shorter than the series *)

Lemma scores_at_raise (results : list EnsembleVote) (i : nat) (msg : string) :
  scores_at results i = Raise msg -> msg = index_error.
Proof.
  induction results as [| v rest IH]; simpl; [discriminate |].
  destruct (scores v !! i); [| now intros [= <-]].
  destruct (scores_at rest i); cbn; [discriminate |].
  intros [= <-]. now apply IH.
Qed.

Lemma scores_at_short (results : list EnsembleVote) (i : nat)
    (v : EnsembleVote) :
  In v results -> (length (scores v) <= i)%nat ->
  scores_at results i = Raise index_error.
Proof.
  intros Hin Hlen. induction results as [| v' rest IH]; [contradiction |].
  simpl. destruct (scores v' !! i) as [s |] eqn:Hs; [| reflexivity].
  destruct Hin as [-> | Hin].
  - apply lookup_lt_Some in Hs. lia.
  - now rewrite IH.
Qed.

Lemma detect_point_raise (E : Collaborators) (metric_name : string)
    (results : list EnsembleVote) (i : nat) (value : R) (t : datetime)
    (msg : string) :
  detect_point E metric_name results i value t = Raise msg ->
  msg = index_error.
Proof.
  unfold detect_point, combined_anomaly_score, _calculate_confidence.
  destruct (scores_at results i) as [ss |] eqn:Hss; cbn.
  - destruct (np_mean_list ss); [| discriminate].
    case_bool_decide; discriminate.
  - intros [= <-]. now apply scores_at_raise in Hss.
Qed.

Lemma detect_loop_raise (E : Collaborators) (metric_name : string)
    (results : list EnsembleVote) (points : list (R * datetime)) (i : nat)
    (msg : string) :
  detect_loop E metric_name results i points = Raise msg ->
  msg = index_error.
Proof.
  revert i. induction points as [| [value t] rest IH]; intros i; simpl;
    [discriminate |].
  destruct (detect_point E metric_name results i value t) eqn:Hp; cbn.
  - destruct (detect_loop E metric_name results (S i) rest) eqn:Hl; cbn;
      [discriminate |].
    intros [= <-]. now apply (IH (S i)).
  - intros [= <-]. now apply detect_point_raise in Hp.
Qed.

(** A vote that does not cover every point aborts the whole loop. *)
Lemma detect_loop_short (E : Collaborators) (metric_name : string)
    (results : list EnsembleVote) (points : list (R * datetime)) (i : nat)
    (v : EnsembleVote) :
  In v results ->
  (i <= length (scores v) < i + length points)%nat ->
  detect_loop E metric_name results i points = Raise index_error.
Proof.
  intros Hin. revert i. induction points as [| [value t] rest IH];
    intros i Hlen; simpl in *; [lia |].
  destruct (detect_point E metric_name results i value t) as [r | msg] eqn:Hp;
    cbn.
  - destruct (decide (length (scores v) = i)) as [Heq | Hne].
    + unfold detect_point, combined_anomaly_score in Hp.
      rewrite (scores_at_short results i v Hin) in Hp by lia.
      discriminate Hp.
    + rewrite (IH (S i)) by lia. reflexivity.
  - apply detect_point_raise in Hp. now subst msg.
Qed.

(** X5: when some vote holds fewer scores than the series has points (for
    instance because the preprocessor shortened the series), the whole call
    returns the empty list and logs an indexing error, whatever the scores
    of the points before the missing one. *)
Theorem detect_anomalies_short_vote_yields_nothing (E : Collaborators)
    (metric_name : string) (metric_data : MetricData) (data : list R)
    (results : list EnsembleVote) (log : list LogEntry) (v : EnsembleVote) :
  (10 <= length (values metric_data))%nat ->
  preprocess_time_series E (values metric_data) = Ok data ->
  _run_ensemble_detection E metric_name data (timestamps metric_data)
  = (results, log) ->
  In v results ->
  (length (scores v)
   < Nat.min (length (values metric_data)) (length (timestamps metric_data)))%nat ->
  detect_anomalies E metric_name metric_data
  = ([], log ++ detection_failed index_error).
Proof.
  intros Hlen Hpre Hrun Hin Hshort.
  rewrite (detect_anomalies_loop _ _ _ _ _ _ Hlen Hpre Hrun).
  rewrite (detect_loop_short E metric_name results _ 0 v Hin);
    [reflexivity |].
  rewrite length_zip. lia.
Qed.

Lemma detect_anomalies_short_vote_witness :
  detect_anomalies
    (example_collaborators (truncating_preprocessor 5)
       (constant_scorer 0) (constant_scorer 2) (constant_scorer 2))
    "cpu" (flat_series 50)
  = ([], detection_failed index_error).
Proof.
  apply (detect_anomalies_short_vote_yields_nothing
           (example_collaborators (truncating_preprocessor 5)
              (constant_scorer 0) (constant_scorer 2) (constant_scorer 2))
           "cpu" (flat_series 50) (replicate 5 50)
           [ mkVote "isolation_forest" (replicate 5 (- 0)) 0.3;
             mkVote "autoencoder" (replicate 5 2) 0.3;
             mkVote "v ae" (replicate 5 2) 0.2;
             mkVote "transformer" (replicate 5 0) 0.2 ]
           [] (mkVote "autoencoder" (replicate 5 2) 0.3)).
  - simpl. lia.
  - reflexivity.
  - rewrite (run_ensemble_all_ok _ "cpu" (replicate 5 50) _
               (replicate 5 0) (replicate 5 2) (replicate 5 2));
      [| reflexivity ..].
    now rewrite transformer_constant.
  - right. now left.
  - simpl. lia.
Defined.

(** ** Exactly the points above the warning level are reported *)

Lemma scores_at_covered (results : list EnsembleVote) (i : nat) :
  Forall (fun v => (i < length (scores v))%nat) results ->
  scores_at results i = Ok (map (fun v => nth i (scores v) 0) results).
Proof.
  induction 1 as [| v rest Hv _ IH]; [reflexivity |].
  apply scores_at_cons; [| exact IH].
  destruct (lookup_lt_is_Some_2 _ _ Hv) as [s Hs].
  rewrite Hs. f_equal. symmetry. now apply nth_lookup_Some with (d := 0).
Qed.

Lemma combined_covered (results : list EnsembleVote) (i : nat) :
  results <> [] ->
  Forall (fun v => (i < length (scores v))%nat) results ->
  combined_anomaly_score results i = Ok (Finite (mean_at results i)).
Proof.
  intros Hne Hcov. unfold combined_anomaly_score, mean_at.
  rewrite (scores_at_covered results i Hcov). cbn.
  destruct results; [congruence | reflexivity].
Qed.

Lemma detect_loop_flagged_points (E : Collaborators) (metric_name : string)
    (results : list EnsembleVote) (points : list (R * datetime)) (k : nat) :
  results <> [] ->
  Forall (fun v => (k + length points <= length (scores v))%nat) results ->
  exists anomalies,
    detect_loop E metric_name results k points = Ok anomalies
    /\ map (fun a => (ar_value a, ar_timestamp a, anomaly_score a)) anomalies
       = flagged_points metric_name results k points.
Proof.
  intros Hne. revert k. induction points as [| [value t] rest IH];
    intros k Hcov; simpl.
  - now exists [].
  - assert (Hk : Forall (fun v => (k < length (scores v))%nat) results).
    { eapply Forall_impl; [exact Hcov |]. simpl. intros v Hv. lia. }
    destruct (IH (S k)) as (tl & Htl & Hmap).
    { eapply Forall_impl; [exact Hcov |]. simpl. intros v Hv. lia. }
    pose proof (combined_covered results k Hne Hk) as Hmean.
    case_bool_decide as Hflag.
    + assert (Hc : exists c, _calculate_confidence results k = Ok c).
      { unfold _calculate_confidence.
        rewrite (scores_at_covered results k Hk). cbn. eauto. }
      destruct Hc as [c Hc].
      rewrite (detect_point_above E metric_name results k value t _ c
                 Hmean Hflag Hc).
      cbn. rewrite Htl. cbn. eexists. split; [reflexivity |].
      cbn. now rewrite Hmap.
    + rewrite (detect_point_not_above E metric_name results k value t _
                 Hmean) by lra.
      cbn. rewrite Htl. cbn. eexists. split; [reflexivity |]. exact Hmap.
Qed.

(** X9: when the preprocessor and every scorer answer and each vote covers
    the series, [detect_anomalies] reports exactly the points whose mean
    vote is strictly above the warning level of the metric, in the order of
    the series, each with its reading, its timestamp and that mean as its
    score, and logs nothing. *)
Theorem detect_anomalies_reports_exactly_flagged (E : Collaborators)
    (metric_name : string) (metric_data : MetricData) (data : list R)
    (results : list EnsembleVote) (log : list LogEntry) :
  (10 <= length (values metric_data))%nat ->
  preprocess_time_series E (values metric_data) = Ok data ->
  _run_ensemble_detection E metric_name data (timestamps metric_data)
  = (results, log) ->
  results <> [] ->
  Forall (fun v =>
            (Nat.min (length (values metric_data))
               (length (timestamps metric_data))
             <= length (scores v))%nat) results ->
  (detect_anomalies E metric_name metric_data).2 = log
  /\ map (fun a => (ar_value a, ar_timestamp a, anomaly_score a))
       (detect_anomalies E metric_name metric_data).1
     = flagged_points metric_name results 0
         (zip (values metric_data) (timestamps metric_data)).
Proof.
  intros Hlen Hpre Hrun Hne Hcov.
  rewrite (detect_anomalies_loop _ _ _ _ _ _ Hlen Hpre Hrun).
  destruct (detect_loop_flagged_points E metric_name results
              (zip (values metric_data) (timestamps metric_data)) 0 Hne)
    as (anomalies & -> & Hmap).
  - eapply Forall_impl; [exact Hcov |]. simpl. intros v Hv.
    rewrite length_zip. lia.
  - split; [reflexivity | exact Hmap].
Qed.

Lemma detect_anomalies_reports_exactly_flagged_witness :
  let E := example_collaborators identity_preprocessor
             (constant_scorer 0) (constant_scorer 2) (constant_scorer 2) in
  let results :=
    [ mkVote "isolation_forest" (replicate 10 (- 0)) 0.3;
      mkVote "autoencoder" (replicate 10 2) 0.3;
      mkVote "v ae" (replicate 10 2) 0.2;
      mkVote "transformer" (replicate 10 0) 0.2 ] in
  (detect_anomalies E "cpu" (flat_series 50)).2 = []
  /\ map (fun a => (ar_value a, ar_timestamp a, anomaly_score a))
       (detect_anomalies E "cpu" (flat_series 50)).1
     = flagged_points "cpu" results 0
         (zip (values (flat_series 50)) (timestamps (flat_series 50))).
Proof.
  intros E results.
  apply (detect_anomalies_reports_exactly_flagged E "cpu" (flat_series 50)
           (replicate 10 50) results []).
  - simpl. lia.
  - reflexivity.
  - apply run_ensemble_constant.
  - discriminate.
  - repeat constructor; simpl; lia.
Defined.

(** ** Which buffers exist *)

Lemma update_buffer_keys (db : gmap string (list R)) (metric_name m : string)
    (metric_data : MetricData) :
  is_Some (update_buffer db metric_name metric_data !! m)
  <-> is_Some (db !! m).
Proof.
  destruct (decide (metric_name = m)) as [-> | Hne].
  - destruct (db !! m) as [buffer |] eqn:Hb.
    + rewrite (update_buffer_same _ _ _ buffer Hb). split; eauto.
    + now rewrite update_buffer_absent, Hb.
  - now rewrite update_buffer_other.
Qed.

Lemma update_fold_keys (metrics_data : list (string * MetricData))
    (db : gmap string (list R)) (m : string) :
  is_Some (foldl (fun db '(name, metric_data) =>
                    update_buffer db name metric_data) db metrics_data !! m)
  <-> is_Some (db !! m).
Proof.
  revert db. induction metrics_data as [| [name md] rest IH]; intros db;
    [reflexivity |].
  cbn [foldl]. rewrite IH. apply update_buffer_keys.
Qed.

Lemma update_fold_untouched (metrics_data : list (string * MetricData))
    (db : gmap string (list R)) (m : string) :
  ~ In m (map fst metrics_data) ->
  foldl (fun db '(name, metric_data) => update_buffer db name metric_data)
    db metrics_data !! m = db !! m.
Proof.
  revert db. induction metrics_data as [| [name md] rest IH]; intros db Hm;
    [reflexivity |].
  cbn [foldl]. cbn in Hm. rewrite IH by tauto.
  apply update_buffer_other. tauto.
Qed.

(** X10: [_update_models] neither creates nor removes a buffer: a metric has
    a buffer afterwards exactly when it had one before, so values collected
    for a metric without buffer are dropped; and the buffer of a metric
    absent from the batch is left as it was. *)
Theorem update_models_keeps_keys (self : Detector)
    (metrics_data : list (string * MetricData)) :
  (forall m,
     is_Some (data_buffer (_update_models self metrics_data) !! m)
     <-> is_Some (data_buffer self !! m))
  /\ (forall m,
        ~ In m (map fst metrics_data) ->
        data_buffer (_update_models self metrics_data) !! m
        = data_buffer self !! m).
Proof.
  split; intros m.
  - apply update_fold_keys.
  - apply update_fold_untouched.
Qed.

Lemma run_cycle_keys (E : Collaborators)
    (collected : exc (list (string * MetricData))) (self : Detector)
    (m : string) :
  is_Some (data_buffer (run_detection_cycle E collected self).1 !! m)
  <-> is_Some (data_buffer self !! m).
Proof.
  destruct collected as [current_metrics | e]; [| reflexivity].
  rewrite run_cycle_buffers. apply update_fold_keys.
Qed.

Lemma background_loop_keys (E : Collaborators)
    (feed : list (exc (list (string * MetricData)) * exc unit))
    (self : Detector) (m : string) :
  is_Some (data_buffer (run_background_tasks E feed self).1 !! m)
  <-> is_Some (data_buffer self !! m).
Proof.
  revert self. induction feed as [| [collected pending] rest IH];
    intros self; [reflexivity |].
  cbn [run_background_tasks].
  pose proof (run_cycle_keys E collected self m) as Hc.
  destruct (run_detection_cycle E collected self) as [self' log].
  destruct pending as [u | e]; [| exact Hc].
  specialize (IH self').
  destruct (run_background_tasks E rest self') as [self'' log'].
  cbn [fst] in *. now rewrite IH.
Qed.

(** X11: the background loop never creates a buffer.  A detector that was
    constructed but whose [initialize] was not run therefore never holds
    any buffered value, however long the loop runs, and every forecast it
    is asked for is empty. *)
Theorem uninitialized_detector_never_forecasts (E : Collaborators)
    (feed : list (exc (list (string * MetricData)) * exc unit)) :
  (forall self m,
     is_Some (data_buffer (run_background_tasks E feed self).1 !! m)
     <-> is_Some (data_buffer self !! m))
  /\ (forall now metric_name horizon,
        predict_future_anomalies (run_background_tasks E feed init).1 now
          metric_name horizon = []).
Proof.
  split; [intros self m; apply background_loop_keys |].
  intros now metric_name horizon. unfold predict_future_anomalies.
  destruct (data_buffer (run_background_tasks E feed init).1 !! metric_name)
    as [buffer |] eqn:Hb; [| reflexivity].
  exfalso.
  assert (Hs : is_Some (data_buffer init !! metric_name)).
  { apply (background_loop_keys E feed init metric_name). eauto. }
  destruct Hs as [x Hx]. cbn in Hx. now rewrite lookup_empty in Hx.
Qed.

(** ** The end of the background loop *)

Lemma background_loop_app (E : Collaborators)
    (pre rest : list (exc (list (string * MetricData)) * exc unit))
    (self : Detector) :
  Forall (fun answers => exists u, answers.2 = Ok u) pre ->
  run_background_tasks E (pre ++ rest) self
  = let '(self', log) := run_background_tasks E pre self in
    let '(self'', log') := run_background_tasks E rest self' in
    (self'', log ++ log').
Proof.
  intros Hpre. revert self.
  induction Hpre as [| [collected pending] pre [u Hu] _ IH]; intros self.
  - cbn. now destruct (run_background_tasks E rest self).
  - cbn [snd] in Hu. subst pending. cbn [app run_background_tasks].
    destruct (run_detection_cycle E collected self) as [self1 log1].
    rewrite IH.
    destruct (run_background_tasks E pre self1) as [self2 log2].
    destruct (run_background_tasks E rest self2) as [self3 log3].
    now rewrite app_assoc.
Qed.

(** X12: the loop ends at the first iteration in which the incident manager
    raises: the cycle of that iteration has run, the error is the last
    entry logged, and what the collaborators would have answered later has
    no effect on the detector or on the log. *)
Theorem background_loop_stops_at_incident_failure (E : Collaborators)
    (pre rest : list (exc (list (string * MetricData)) * exc unit))
    (collected : exc (list (string * MetricData))) (e : string)
    (self : Detector) :
  Forall (fun answers => exists u, answers.2 = Ok u) pre ->
  let run := run_background_tasks E (pre ++ (collected, Raise e) :: rest) self in
  run = run_background_tasks E (pre ++ [(collected, Raise e)]) self
  /\ last run.2 = Some (LogError "Background task error" e)
  /\ length (List.filter cycle_end run.2) = S (length pre).
Proof.
  intros Hpre run. subst run.
  rewrite !(background_loop_app E pre _ self Hpre).
  pose proof (background_loop_runs_every_cycle E pre self Hpre) as Hcount.
  destruct (run_background_tasks E pre self) as [self1 log1].
  cbn [run_background_tasks snd] in *.
  pose proof (run_cycle_ends_once E collected self1) as Hone.
  destruct (run_detection_cycle E collected self1) as [self2 log2].
  cbn [snd] in *. split; [reflexivity |]. split.
  - rewrite !app_assoc. apply last_snoc.
  - rewrite !List.filter_app, !length_app, Hcount, Hone. cbn. lia.
Qed.

Lemma background_loop_stops_witness :
  let E := example_collaborators identity_preprocessor
             (constant_scorer 0) (constant_scorer 2) (constant_scorer 2) in
  let run :=
    run_background_tasks E
      ([(Raise "collector down", Ok tt)]
       ++ (Ok [("cpu"%string, flat_series 50)], Raise "incident store down")
          :: [(Ok [("cpu"%string, flat_series 60)], Ok tt)])
      (_load_historical_data init) in
  run = run_background_tasks E
          ([(Raise "collector down", Ok tt)]
           ++ [(Ok [("cpu"%string, flat_series 50)],
                Raise "incident store down")])
          (_load_historical_data init)
  /\ last run.2 = Some (LogError "Background task error" "incident store down")
  /\ length (List.filter cycle_end run.2) = 2%nat.
Proof.
  intros E.
  apply (background_loop_stops_at_incident_failure E
           [(Raise "collector down", Ok tt)]
           [(Ok [("cpu"%string, flat_series 60)], Ok tt)]
           (Ok [("cpu"%string, flat_series 50)]) "incident store down"
           (_load_historical_data init)).
  constructor; [now exists tt | constructor].
Defined.

(** ** The statistical scorer: shape, shifts, ranking *)

Lemma np_sum_shift (k : R) (l : list R) :
  np_sum (map (fun x => x + k) l) = np_sum l + INR (length l) * k.
Proof.
  induction l as [| x l IH]; [simpl; lra |].
  cbn [map np_sum foldr length]. fold (np_sum (map (fun x => x + k) l)).
  fold (np_sum l). rewrite IH, S_INR. lra.
Qed.

Lemma np_mean_shift (k : R) (l : list R) :
  l <> [] -> np_mean (map (fun x => x + k) l) = np_mean l + k.
Proof.
  intros Hne. unfold np_mean. rewrite np_sum_shift, length_map.
  field. apply not_0_INR. destruct l; [congruence | discriminate].
Qed.

Lemma np_var_shift (k : R) (l : list R) :
  np_var (map (fun x => x + k) l) = np_var l.
Proof.
  destruct l as [| x0 l0] eqn:Hl; [reflexivity |]. rewrite <- Hl.
  assert (Hne : l <> []) by (rewrite Hl; discriminate).
  unfold np_var. rewrite (np_mean_shift k l Hne), map_map.
  f_equal. apply map_ext. intros x. ring.
Qed.

(** X13: the statistical scorer answers one score per point; it scores a
    flat series zero at every point; and adding one constant to every
    reading leaves every score unchanged. *)
Theorem statistical_scorer_shape_and_shift (data : list R) :
  length (_transformer_anomaly_detection data) = length data
  /\ (forall x n,
        _transformer_anomaly_detection (replicate n x) = replicate n 0)
  /\ (forall k,
        _transformer_anomaly_detection (map (fun x => x + k) data)
        = _transformer_anomaly_detection data).
Proof.
  split; [apply transformer_length |].
  split; [intros x n; apply transformer_constant |].
  intros k. rewrite !transformer_scores_eq.
  unfold np_std. rewrite np_var_shift, map_map.
  destruct data as [| x0 data0] eqn:Hd; [reflexivity |]. rewrite <- Hd.
  rewrite np_mean_shift by (rewrite Hd; discriminate).
  apply map_ext. intros x. do 4 f_equal. ring.
Qed.

Lemma Rdiv_lt_cross (a b c d : R) :
  0 < b -> 0 < d -> a * d < c * b -> a / b < c / d.
Proof.
  intros Hb Hd H. apply (Rmult_lt_reg_r (b * d)); [nra |].
  replace (a / b * (b * d)) with (a * d) by (field; lra).
  replace (c / d * (b * d)) with (c * b) by (field; lra).
  exact H.
Qed.

Lemma tanh_increasing (a b : R) : a < b -> tanh a < tanh b.
Proof.
  intros Hab. unfold tanh, sinh, cosh.
  pose proof (exp_pos a) as Hea. pose proof (exp_pos (- a)) as Hna.
  pose proof (exp_pos b) as Heb. pose proof (exp_pos (- b)) as Hnb.
  assert (He : exp a < exp b) by now apply exp_increasing.
  assert (Hn : exp (- b) < exp (- a)) by (apply exp_increasing; lra).
  apply Rdiv_lt_cross; [lra | lra |]. nra.
Qed.

Lemma tanh_monotone (a b : R) : a <= b -> tanh a <= tanh b.
Proof.
  intros [Hlt | ->]; [left; now apply tanh_increasing | apply Rle_refl].
Qed.

(** X14: the statistical scorer ranks the points of a series by their
    distance from the mean of the series: a point at least as far from the
    mean as another scores at least as high, and strictly higher when it is
    strictly farther. *)
Theorem statistical_scorer_ranks_by_distance (data : list R) (i j : nat)
    (x y : R) :
  data !! i = Some x -> data !! j = Some y ->
  exists sx sy,
    _transformer_anomaly_detection data !! i = Some sx
    /\ _transformer_anomaly_detection data !! j = Some sy
    /\ (Rabs (x - np_mean data) <= Rabs (y - np_mean data) -> sx <= sy)
    /\ (Rabs (x - np_mean data) < Rabs (y - np_mean data) -> sx < sy).
Proof.
  intros Hx Hy. rewrite transformer_scores_eq, !lookup_map, Hx, Hy.
  do 2 eexists. split; [reflexivity |]. split; [reflexivity |].
  pose proof (std_eps_pos data) as Hd.
  assert (Hinv : 0 < / (np_std data + 1e-8)) by now apply Rinv_0_lt_compat.
  split; intros H.
  - apply tanh_monotone. unfold Rdiv.
    apply Rmult_le_compat_r; [lra |]. apply Rmult_le_compat_r; lra.
  - apply tanh_increasing. unfold Rdiv.
    apply Rmult_lt_compat_r; [lra |]. apply Rmult_lt_compat_r; lra.
Qed.

Lemma statistical_scorer_ranks_witness :
  exists sx sy,
    _transformer_anomaly_detection [1; 2; 9] !! 1%nat = Some sx
    /\ _transformer_anomaly_detection [1; 2; 9] !! 2%nat = Some sy
    /\ (Rabs (2 - np_mean [1; 2; 9]) <= Rabs (9 - np_mean [1; 2; 9]) ->
        sx <= sy)
    /\ (Rabs (2 - np_mean [1; 2; 9]) < Rabs (9 - np_mean [1; 2; 9]) ->
        sx < sy).
Proof.
  apply (statistical_scorer_ranks_by_distance [1; 2; 9] 1 2 2 9);
    reflexivity.
Defined.

(** ** Confidence and agreement *)






(** ** The forecast: shape, trend, scores *)

Lemma tail_slice_tail_slice {A : Type} (k n : nat) (l : list A) :
  (k <= n)%nat -> tail_slice k (tail_slice n l) = tail_slice k l.
Proof.
  intros Hk. unfold tail_slice. rewrite length_drop, drop_drop.
  f_equal. lia.
Qed.

Lemma last_cons_cons (x y d : R) (l : list R) :
  List.last (x :: y :: l) d = List.last (y :: l) d.
Proof. reflexivity. Qed.

Lemma last_default (l : list R) (d d' : R) :
  l <> [] -> List.last l d = List.last l d'.
Proof.
  induction l as [| x l IH]; [congruence |]. intros _.
  destruct l as [| y l]; [reflexivity |].
  rewrite !last_cons_cons. apply IH. discriminate.
Qed.

Lemma last_drop (k : nat) (l : list R) (d : R) :
  (k < length l)%nat -> List.last (drop k l) d = List.last l d.
Proof.
  revert l. induction k as [| k IH]; intros l Hk; [reflexivity |].
  destruct l as [| x l]; [simpl in Hk; lia |].
  cbn [drop]. simpl in Hk. rewrite IH by lia.
  destruct l as [| y l]; [simpl in Hk; lia | reflexivity].
Qed.

Lemma hd_drop (k : nat) (l : list R) (d : R) :
  hd d (drop k l) = nth k l d.
Proof.
  revert l. induction k as [| k IH]; intros [| x l]; try reflexivity.
  cbn [drop nth]. apply IH.
Qed.

(** The first differences of a series sum to its last value minus its
    first. *)
Lemma np_sum_cons (a : R) (r : list R) : np_sum (a :: r) = a + np_sum r.
Proof. reflexivity. Qed.

Lemma np_sum_diff (x : R) (l : list R) :
  np_sum (np_diff (x :: l)) = List.last (x :: l) 0 - x.
Proof.
  unfold np_diff. cbn [drop]. rewrite drop_0.
  revert x. induction l as [| y l IH]; intros x; [simpl; lra |].
  rewrite last_cons_cons.
  replace (zip_with (fun a b => b - a) (x :: y :: l) (y :: l))
    with ((y - x) :: zip_with (fun a b => b - a) (y :: l) l)
    by reflexivity.
  rewrite np_sum_cons, IH. lra.
Qed.

Lemma np_diff_length (l : list R) : length (np_diff l) = (length l - 1)%nat.
Proof.
  unfold np_diff. rewrite length_zip_with, length_drop. lia.
Qed.

(** The trend over a window is its overall rise divided by the number of
    steps. *)
Lemma trend_of_window (w : list R) :
  w <> [] ->
  np_mean (np_diff w)
  = (List.last w 0 - hd 0 w) / INR (length w - 1).
Proof.
  intros Hne. unfold np_mean. rewrite np_diff_length.
  destruct w as [| x l]; [congruence |]. now rewrite np_sum_diff.
Qed.

(** X16: with at least 50 buffered values, the predicted value at horizon
    step [h] is the last buffered value plus [h] times one ninth of the
    rise over the last ten buffered values. *)
Theorem forecast_extrapolates_last_ten (self : Detector) (now : datetime)
    (metric_name : string) (horizon : Z) (buffer : list R) :
  data_buffer self !! metric_name = Some buffer ->
  (50 <= length buffer)%nat ->
  map predicted_values
    (predict_future_anomalies self now metric_name horizon)
  = map (fun h =>
           [ List.last buffer 0
             + (List.last buffer 0 - nth (length buffer - 10) buffer 0) / 9
               * IZR h ])
      (seqZ 1 horizon).
Proof.
  intros Hb Hlen.
  rewrite (predict_enough_history self now metric_name horizon buffer Hb Hlen).
  rewrite map_map. apply map_ext. intros h. cbn [predicted_values].
  rewrite tail_slice_tail_slice by lia.
  assert (Hw : length (tail_slice 10 buffer) = 10%nat)
    by (rewrite tail_slice_length; lia).
  rewrite trend_of_window by (intros H0; rewrite H0 in Hw; discriminate).
  rewrite Hw. unfold tail_slice at 1 2 3.
  rewrite !last_drop by lia. rewrite hd_drop.
  do 3 f_equal. rewrite INR_IZR_INZ. reflexivity.
Qed.

Lemma forecast_extrapolates_witness :
  let buffer := linear_series 20 0.5 60 in
  let self := mkDetector {[ "cpu"%string := buffer ]} in
  map predicted_values (predict_future_anomalies self 0%Z "cpu" 2)
  = map (fun h =>
           [ List.last buffer 0
             + (List.last buffer 0 - nth (length buffer - 10) buffer 0) / 9
               * IZR h ])
      (seqZ 1 2).
Proof.
  intros buffer self.
  apply (forecast_extrapolates_last_ten self 0%Z "cpu" 2 buffer eq_refl).
  subst buffer. rewrite linear_series_length. lia.
Defined.

Lemma prediction_score_range (predicted_value : R) (historical_data : list R) :
  0 <= _calculate_prediction_anomaly_score predicted_value historical_data < 1.
Proof.
  rewrite prediction_score_eq. apply tanh_range.
  apply Rmult_le_pos; [apply z_score_nonneg | lra].
Qed.

(** X17: whatever the state of the detector, every anomaly score attached
    to a prediction lies in [0, 1), and every confidence interval is
    centred on its predicted value with its lower bound not above its
    upper bound. *)
Theorem forecast_scores_and_intervals (self : Detector) (now : datetime)
    (metric_name : string) (horizon : Z) :
  Forall
    (fun p =>
       exists pv lo hi s,
         predicted_values p = [pv]
         /\ confidence_intervals p = [[lo; hi]]
         /\ anomaly_scores p = [s]
         /\ lo <= pv <= hi /\ pv - lo = hi - pv
         /\ 0 <= s < 1
         /\ model_name p = "linear_trend"%string)
    (predict_future_anomalies self now metric_name horizon).
Proof.
  unfold predict_future_anomalies.
  destruct (data_buffer self !! metric_name) as [buffer |]; [| constructor].
  case_bool_decide; [constructor |].
  apply Forall_flat_map, Forall_forall. intros h _.
  unfold predict_step. case_bool_decide; [| constructor].
  constructor; [| constructor]. cbn.
  pose proof (np_std_nonneg (tail_slice 20 (tail_slice 100 buffer))) as Hs.
  do 4 eexists. repeat split; try reflexivity; try lra;
    apply prediction_score_range.
Qed.

(** X18: with at least 50 buffered values the forecast holds one prediction
    per horizon step, stamped one hour apart from the hour after now; all
    its confidence intervals have the same width, four times the standard
    deviation of the last 20 buffered values; and a horizon of zero or less
    yields no prediction. *)
Theorem forecast_steps_and_interval_width (self : Detector) (now : datetime)
    (metric_name : string) (horizon : Z) (buffer : list R) :
  data_buffer self !! metric_name = Some buffer ->
  (50 <= length buffer)%nat ->
  let predictions := predict_future_anomalies self now metric_name horizon in
  map mp_timestamp predictions
  = map (fun h => (now + 3600 * h)%Z) (seqZ 1 horizon)
  /\ Forall (fun p => exists lo hi,
               confidence_intervals p = [[lo; hi]]
               /\ hi - lo = 4 * np_std (tail_slice 20 buffer))
       predictions
  /\ ((horizon <= 0)%Z -> predictions = []).
Proof.
  intros Hb Hlen predictions. subst predictions.
  rewrite (predict_enough_history self now metric_name horizon buffer Hb Hlen).
  split; [| split].
  - rewrite map_map. apply map_ext. reflexivity.
  - apply Forall_forall. intros p Hp.
    apply list_elem_of_In, in_map_iff in Hp. destruct Hp as (h & <- & _).
    cbn [confidence_intervals].
    rewrite (tail_slice_tail_slice 20 100) by lia.
    do 2 eexists. split; [reflexivity | lra].
  - intros Hh. unfold seqZ. replace (Z.to_nat horizon) with 0%nat by lia.
    reflexivity.
Qed.

Lemma forecast_steps_witness :
  let buffer := linear_series 20 0.5 60 in
  let self := mkDetector {[ "cpu"%string := buffer ]} in
  map mp_timestamp (predict_future_anomalies self 100%Z "cpu" 3)
  = [3700; 7300; 10900]%Z.
Proof.
  intros buffer self.
  assert (Hlen : (50 <= length buffer)%nat)
    by (subst buffer; rewrite linear_series_length; lia).
  apply (proj1 (forecast_steps_and_interval_width self 100%Z "cpu" 3 buffer
                  eq_refl Hlen)).
Defined.



(** ** Loading, collecting, reporting *)

Lemma load_lookup_buffered (self : Detector) (m : string) :
  In m buffered_metrics ->
  data_buffer (_load_historical_data self) !! m = Some [].
Proof.
  intros Hin. unfold _load_historical_data. cbn [data_buffer foldl].
  cbn in Hin.
  destruct Hin as [<- | [<- | [<- | [<- | [<- | []]]]]];
    repeat first [ apply lookup_insert_eq
                 | rewrite lookup_insert_ne by discriminate ].
Qed.

Lemma load_lookup_other (self : Detector) (m : string) :
  ~ In m buffered_metrics ->
  data_buffer (_load_historical_data self) !! m = data_buffer self !! m.
Proof.
  intros Hin. unfold _load_historical_data. cbn [data_buffer foldl].
  cbn in Hin.
  repeat (rewrite lookup_insert_ne by (intros <-; tauto)). reflexivity.
Qed.

Lemma update_cycles_absent (batches : list (list (string * MetricData)))
    (self : Detector) (m : string) :
  data_buffer self !! m = None ->
  data_buffer (update_cycles self batches) !! m = None.
Proof.
  unfold update_cycles. revert self.
  induction batches as [| batch rest IH]; intros self Hm; [exact Hm |].
  cbn [foldl]. apply IH. cbn [_update_models data_buffer].
  now apply update_fold_absent.
Qed.

Lemma collected_buffer (batches : list (list (string * MetricData)))
    (self : Detector) (m : string) :
  In m buffered_metrics ->
  data_buffer (update_cycles (_load_historical_data self) batches) !! m
  = Some (tail_slice buffer_size (concat (map (inserted m) batches))).
Proof.
  intros Hin.
  rewrite (update_cycles_lookup batches _ m [] (load_lookup_buffered self m Hin))
    by (simpl; lia).
  reflexivity.
Qed.

(** X20: after the historical buffers are loaded on a fresh detector and
    any number of cycles have updated them, the status report gives, for
    each of the five buffered metrics, the number of values collected for
    it capped at 1000, and no size for any other metric; the three
    classical models are reported active, the transformer only once it is
    loaded. *)
Theorem model_status_after_collection (transformer_loaded : bool)
    (batches : list (list (string * MetricData))) (now : datetime) :
  let self := update_cycles (_load_historical_data init) batches in
  let report := get_model_status transformer_loaded self now in
  (forall m, In m buffered_metrics ->
     data_buffer_sizes report !! m
     = Some (Nat.min 1000 (length (concat (map (inserted m) batches)))))
  /\ (forall m, ~ In m buffered_metrics -> data_buffer_sizes report !! m = None)
  /\ map (fun '(name, status) => (name, ms_status status)) (models report)
     = [ ("transformer"%string,
          if transformer_loaded then "active"%string else "inactive"%string);
         ("isolation_forest"%string, "active"%string);
         ("autoencoder"%string, "active"%string);
         ("vae"%string, "active"%string) ].
Proof.
  intros self report. subst report. cbn [get_model_status data_buffer_sizes].
  split; [| split].
  - intros m Hin. rewrite lookup_fmap. subst self.
    rewrite (collected_buffer batches init m Hin). cbn [fmap option_fmap option_map].
    rewrite tail_slice_length. reflexivity.
  - intros m Hin. rewrite lookup_fmap. subst self.
    rewrite update_cycles_absent; [reflexivity |].
    rewrite load_lookup_other by exact Hin. apply lookup_empty.
  - cbn. now destruct transformer_loaded.
Qed.

(** X21: after the historical buffers are loaded, the forecast of a
    buffered metric is empty as long as fewer than 50 values have been
    collected for it, and holds one prediction per horizon step from then
    on; a metric without buffer is never forecast. *)
Theorem forecast_needs_fifty_collected (self : Detector)
    (batches : list (list (string * MetricData))) (now : datetime)
    (horizon : Z) :
  let after := update_cycles (_load_historical_data self) batches in
  (forall m, In m buffered_metrics ->
     let collected := length (concat (map (inserted m) batches)) in
     ((collected < 50)%nat ->
      predict_future_anomalies after now m horizon = [])
     /\ ((50 <= collected)%nat ->
         length (predict_future_anomalies after now m horizon)
         = Z.to_nat horizon))
  /\ (forall m, data_buffer self !! m = None -> ~ In m buffered_metrics ->
        predict_future_anomalies after now m horizon = []).
Proof.
  intros after. subst after. split.
  - intros m Hin collected. subst collected.
    pose proof (collected_buffer batches self m Hin) as Hb. split; intros Hc.
    + unfold predict_future_anomalies. rewrite Hb.
      rewrite bool_decide_eq_true_2; [reflexivity |].
      rewrite tail_slice_length. lia.
    + rewrite (predict_enough_history _ now m horizon _ Hb)
        by (rewrite tail_slice_length; unfold buffer_size; lia).
      now rewrite length_map, length_seqZ.
  - intros m Hnone Hin. unfold predict_future_anomalies.
    rewrite update_cycles_absent; [reflexivity |].
    now rewrite load_lookup_other.
Qed.

(** ** The votes of the ensemble *)

(** X22: the ensemble answers with the votes of the scorers that ran, in
    the fixed order isolation forest, auto-encoder, VAE, statistical
    scorer: either all four, with nothing logged, or none, one or two
    (never three, the statistical scorer following the VAE without fail)
    together with one logged error.  The vote of the statistical scorer,
    when present, holds one score per point of the series. *)
Theorem run_ensemble_votes (E : Collaborators) (metric_name : string)
    (data : list R) (ts : list datetime) :
  let results := (_run_ensemble_detection E metric_name data ts).1 in
  let log := (_run_ensemble_detection E metric_name data ts).2 in
  map model results
    `prefix_of` ["isolation_forest"; "autoencoder"; "v ae"; "transformer"]%string
  /\ ((length results = 4%nat /\ log = [])
      \/ ((length results < 3)%nat /\ exists e, log = ensemble_failed e))
  /\ Forall (fun v => model v = "transformer"%string ->
                      length (scores v) = length data) results.
Proof.
  intros results log. subst results log. unfold _run_ensemble_detection.
  destruct (isolation_forest_decision_function E data) as [iso | e].
  2:{ cbn. split; [apply prefix_nil |]. split; [| constructor].
      right. split; [lia | eauto]. }
  destruct (autoencoder_decision_function E data) as [ae | e].
  2:{ cbn. split; [now exists ["autoencoder"; "v ae"; "transformer"]%string |].
      split; [right; split; [lia | eauto] |].
      constructor; [discriminate | constructor]. }
  destruct (vae_decision_function E data) as [vae | e].
  2:{ cbn. split; [now exists ["v ae"; "transformer"]%string |].
      split; [right; split; [lia | eauto] |].
      repeat (constructor; [discriminate |]). constructor. }
  cbn. split; [now exists [] |]. split; [now left |].
  repeat (constructor; [discriminate |]).
  constructor; [| constructor]. intros _. apply transformer_length.
Qed.
